(** * The dashboard server of [webgui/server.py]

  A shallow embedding of the connection registry ([ConnectionManager]),
  the broadcast pass, the metrics collectors ([get_system_info],
  [get_bot_info]) and one turn of the scheduler loop ([broadcast_stats]),
  followed by the properties proved about them.

  Conventions of the embedding:
  - a [WebSocket] object is its identity (starlette compares connections
    with [is]), so Python's [x in l] and [l.remove(x)] compare identities;
  - everything that lives outside the file (the transport under a
    websocket, [psutil], [platform], the clock, float arithmetic and
    formatting) is an interface the development is parametric in;
  - a Python call either returns or raises an [Exception]; calls are
    threaded through a state-and-exception monad whose state also keeps
    a history of the external calls that were made;
  - [logging] calls change nothing that is modelled and are left out;
  - a coroutine is run from one suspension to its end without any other
    task of the event loop touching the registry in between. *)

From stdpp Require Import base option list strings pretty.
From Stdlib Require Import ZArith Ascii.

(** ** Python values and outcomes *)

Inductive exn : Type :=
| Exception (what : string).

Inductive result (A : Type) : Type :=
| Returns (a : A)
| Raises (e : exn).
Arguments Returns {A} a.
Arguments Raises {A} e.

Definition is_returns {A} (r : result A) : bool :=
  match r with Returns _ => true | Raises _ => false end.

(** [starlette.websockets.WebSocketState] *)
Inductive WebSocketState : Type :=
| CONNECTING
| CONNECTED
| DISCONNECTED
| RESPONSE.

#[global] Instance WebSocketState_eq_dec : EqDecision WebSocketState.
Proof. solve_decision. Defined.

(** A connection object, known by its identity. *)
Definition WebSocket : Type := nat.

#[global] Instance WebSocket_eq_dec : EqDecision WebSocket := Nat.eq_dec.

(** ** Python list operations used on the registry *)

Section PyList.
Context {A : Type} `{EqDecision A}.

(** [l.append(x)] *)
Definition list_append (l : list A) (x : A) : list A := l ++ [x].

(** [x in l] *)
Definition list_contains (x : A) (l : list A) : bool := bool_decide (x ∈ l).

(** [l.remove(x)]: drops the first item equal to [x]; [None] stands for
    the [ValueError] raised when there is none. *)
Fixpoint list_remove (x : A) (l : list A) : option (list A) :=
  match l with
  | [] => None
  | y :: l' => if decide (x = y) then Some l' else cons y <$> list_remove x l'
  end.

(** Number of items of [l] equal to [x]. *)
Definition occurrences (x : A) (l : list A) : nat :=
  length (filter (λ y, y = x) l).
End PyList.

(** ** What the libraries provide

    Float arithmetic, rounding and date handling are not modelled: they are
    operations of this interface. *)

Class PyLib (float datetime timedelta : Type) : Type := {
  round2 : float → float;                       (* round(x, 2) *)
  true_div : Z → Z → float;                     (* a / b on ints *)
  float_sub : float → float → float;            (* a - b *)
  float_mul : float → Z → float;                (* a * k *)
  float_floordiv : float → Z → float;           (* a // k *)
  float_mod : float → Z → float;                (* a % k *)
  float_truthy : float → bool;                  (* bool(a) *)
  int_of_float : float → result Z;              (* int(a) *)
  datetime_fromtimestamp : float → result datetime;
  datetime_sub : datetime → datetime → timedelta;
  isoformat : datetime → string;
  total_seconds : timedelta → float;
  timedelta_str : timedelta → string
}.

Declare Scope py_scope.
Delimit Scope py_scope with py.

Section Program.
Context {float datetime timedelta : Type} `{!PyLib float datetime timedelta}.

(** ** JSON-like values *)

#[warnings="-register-all"] Inductive Json : Type :=
| JNone
| JBool (b : bool)
| JInt (z : Z)
| JFloat (f : float)
| JStr (s : string)
| JDict (items : list (string * Json)).

(** [d[k]] on a dict literal (first binding of the key). *)
Fixpoint assoc (k : string) (items : list (string * Json)) : option Json :=
  match items with
  | [] => None
  | (k', v) :: items' => if decide (k = k') then Some v else assoc k items'
  end.

Definition dict_get (k : string) (d : Json) : option Json :=
  match d with
  | JDict items => assoc k items
  | _ => None
  end.

(** A number that is an [int] or a [float]. *)
Inductive number : Type :=
| Int (z : Z)
| Float (f : float).

(** ** The transport under the websockets

    [Net] is the state of the transport layer. Reading
    [connection.client_state] does not change it; [accept] and [send_json]
    may, and either return or raise. *)

Class Transport (Net : Type) : Type := {
  client_state : Net → WebSocket → WebSocketState;
  ws_accept : Net → WebSocket → Net * result unit;
  ws_send_json : Net → WebSocket → Json → Net * result unit
}.

Context {Net : Type} `{!Transport Net}.

(** ** What [psutil], [platform] and the clock report *)

Record scpufreq : Type := { freq_current : float; freq_max : float }.

Record svmem : Type := {
  vm_total : Z; vm_available : Z; vm_used : Z; vm_percent : float
}.

Record sswap : Type := { swap_total : Z; swap_used : Z; swap_percent : float }.

Record sdiskusage : Type := {
  disk_total : Z; disk_used : Z; disk_free : Z; disk_percent : float
}.

Record snetio : Type := {
  bytes_sent : Z; bytes_recv : Z; packets_sent : Z; packets_recv : Z
}.

Record pmem : Type := { rss : Z }.

Record Process : Type := {
  memory_info : result pmem;
  process_cpu_percent : result float;
  num_threads : result Z
}.

Record Host : Type := {
  psutil_cpu_percent : result float;
  psutil_cpu_count : bool → result (option Z);
  psutil_cpu_freq : result (option scpufreq);
  psutil_virtual_memory : result svmem;
  psutil_swap_memory : result sswap;
  psutil_disk_usage : string → result sdiskusage;
  psutil_net_io_counters : result (option snetio);
  os_getpid : Z;
  psutil_Process : Z → result Process;
  psutil_boot_time : result float;
  datetime_now : datetime;
  time_time : float;
  platform_system : string;
  platform_release : string;
  platform_version : string;
  platform_machine : string;
  platform_node : string;
  platform_python_version : string
}.

(** ** The bot object, as far as [get_bot_info] looks at it *)

Record User : Type := { user_str : string; user_id : Z }.

Record Guild : Type := { member_count : option Z }.

Record Bot : Type := {
  start_time : option float;            (* None: no such attribute *)
  is_ready : result bool;
  user : result (option User);
  guilds : result (list Guild);
  latency : result float;
  shard_count : result (option Z);
  tree_get_commands : option (result Z) (* None: no [tree] attribute *)
}.

(** History of the calls that leave the file. *)
Inductive Event : Type :=
| EvAccept (ws : WebSocket) (ok : bool)
| EvClientState (ws : WebSocket) (st : WebSocketState)
| EvSendJson (ws : WebSocket) (message : Json) (ok : bool)
| EvSystemInfo
| EvBotInfo.

(** ** Program state *)

Record ConnectionManager : Type := {
  active_connections : list WebSocket
}.

Record State : Type := {
  manager : ConnectionManager;      (* the module's [manager] *)
  bot_instance : option Bot;        (* the module's [bot_instance] *)
  host : Host;
  net : Net;
  trace : list Event
}.

Definition M (A : Type) : Type := State → State * result A.

Definition ret {A} (a : A) : M A := λ s, (s, Returns a).

Definition raise {A} (e : exn) : M A := λ s, (s, Raises e).

Definition bind {A B} (c : M A) (k : A → M B) : M B :=
  λ s, match c s with
       | (s', Returns a) => k a s'
       | (s', Raises e) => (s', Raises e)
       end.

Notation "x <- c ;; k" := (bind c (λ x, k))
  (at level 100, c at next level, right associativity) : py_scope.
Notation "c ;; k" := (bind c (λ _, k))
  (at level 100, right associativity) : py_scope.
Local Open Scope py_scope.

(** [try: body / except Exception as e: handler e] *)
Definition try_except {A} (body : M A) (handler : exn → M A) : M A :=
  λ s, match body s with
       | (s', Returns a) => (s', Returns a)
       | (s', Raises e) => handler e s'
       end.

Definition with_connections (l : list WebSocket) (s : State) : State :=
  {| manager := {| active_connections := l |};
     bot_instance := bot_instance s; host := host s;
     net := net s; trace := trace s |}.

Definition with_net (n : Net) (s : State) : State :=
  {| manager := manager s; bot_instance := bot_instance s; host := host s;
     net := n; trace := trace s |}.

Definition with_event (e : Event) (s : State) : State :=
  {| manager := manager s; bot_instance := bot_instance s; host := host s;
     net := net s; trace := trace s ++ [e] |}.

Definition connections (s : State) : list WebSocket :=
  active_connections (manager s).

(** [len(self.active_connections)] *)
Definition Count (s : State) : nat := length (connections s).

Definition get_connections : M (list WebSocket) :=
  λ s, (s, Returns (connections s)).

Definition set_connections (l : list WebSocket) : M unit :=
  λ s, (with_connections l s, Returns ()).

Definition log_event (e : Event) : M unit :=
  λ s, (with_event e s, Returns ()).

(** A reading of the host; it raises when the library call does. *)
Definition reading {A} (f : Host → result A) : M A :=
  λ s, (s, f (host s)).

Definition lift {A} (r : result A) : M A := λ s, (s, r).

(** Monadic [for x in l: body x]. *)
Fixpoint for_each {A} (l : list A) (body : A → M unit) : M unit :=
  match l with
  | [] => ret ()
  | x :: l' => body x ;; for_each l' body
  end.

(** A [for] loop whose body updates one local variable. *)
Fixpoint for_fold {A B} (l : list A) (acc : B) (body : B → A → M B) : M B :=
  match l with
  | [] => ret acc
  | x :: l' => acc' <- body acc x ;; for_fold l' acc' body
  end.

(** ** Calls on a websocket *)

(** [await websocket.accept()] *)
Definition accept (websocket : WebSocket) : M unit :=
  λ s, let '(n', r) := ws_accept (net s) websocket in
       (with_event (EvAccept websocket (is_returns r)) (with_net n' s), r).

(** [connection.client_state] *)
Definition read_client_state (connection : WebSocket) : M WebSocketState :=
  λ s, let st := client_state (net s) connection in
       (with_event (EvClientState connection st) s, Returns st).

(** [await connection.send_json(message)] *)
Definition send_json (connection : WebSocket) (message : Json) : M unit :=
  λ s, let '(n', r) := ws_send_json (net s) connection message in
       (with_event (EvSendJson connection message (is_returns r))
          (with_net n' s), r).

(** ** [ConnectionManager] *)

Definition connect (websocket : WebSocket) : M unit :=
  accept websocket ;;
  conns <- get_connections ;;
  set_connections (list_append conns websocket).

Definition disconnect (websocket : WebSocket) : M unit :=
  conns <- get_connections ;;
  if list_contains websocket conns then
    match list_remove websocket conns with
    | Some conns' => set_connections conns'
    | None => raise (Exception "ValueError: list.remove(x): x not in list")
    end
  else ret ().

(** One turn of the first loop of [broadcast]; [disconnected] is the local
    list the loop appends to. *)
Definition broadcast_visit (message : Json)
    (disconnected : list WebSocket) (connection : WebSocket)
    : M (list WebSocket) :=
  try_except
    (st <- read_client_state connection ;;
     if decide (st = CONNECTED) then
       send_json connection message ;; ret disconnected
     else ret (list_append disconnected connection))
    (λ e, ret (list_append disconnected connection)).

(** The first loop of [broadcast]: returns the final [disconnected]. The
    body never assigns to the registry, so the list read on entry is the
    list the loop walks. *)
Definition broadcast_send (message : Json) : M (list WebSocket) :=
  conns <- get_connections ;;
  for_fold conns [] (broadcast_visit message).

Definition broadcast (message : Json) : M unit :=
  disconnected <- broadcast_send message ;;
  for_each disconnected disconnect.

(** ** [get_system_info] *)

(** [datetime.now()]: the clock reading of the state. The source reads the
    clock twice within one call of [get_system_info]; both reads get it. *)
Definition clock : M datetime := reading (λ h, Returns (datetime_now h)).

(** [s.split('.')[0]] *)
Fixpoint split_dot_head (s : string) : string :=
  match s with
  | EmptyString => EmptyString
  | String c s' =>
      if decide (c = "."%char) then EmptyString else String c (split_dot_head s')
  end.

Definition json_of_count (n : option Z) : Json :=
  match n with Some z => JInt z | None => JNone end.

(** Attribute access on a value that may be [None]. *)
Definition not_none {A} (x : option A) : M A :=
  match x with
  | Some a => ret a
  | None => raise (Exception "AttributeError: 'NoneType' object has no attribute")
  end.

(** The body of the [try] of [get_system_info]. *)
Definition system_info_try : M Json :=
  cpu_percent <- reading psutil_cpu_percent ;;
  cpu_count <- reading (λ h, psutil_cpu_count h true) ;;
  cpu_count_physical <- reading (λ h, psutil_cpu_count h false) ;;
  cpu_freq <- reading psutil_cpu_freq ;;
  memory <- reading psutil_virtual_memory ;;
  swap <- reading psutil_swap_memory ;;
  disk <- reading (λ h, psutil_disk_usage h "/") ;;
  net_io <- reading psutil_net_io_counters ;;
  process <- reading (λ h, psutil_Process h (os_getpid h)) ;;
  process_memory <- lift (memory_info process) ;;
  process_cpu <- lift (process_cpu_percent process) ;;
  boot_stamp <- reading psutil_boot_time ;;
  boot_time <- lift (datetime_fromtimestamp boot_stamp) ;;
  now <- clock ;;
  let uptime := datetime_sub now boot_time in
  timestamp <- clock ;;
  counters <- not_none net_io ;;
  threads <- lift (num_threads process) ;;
  h <- reading Returns ;;
  uptime_seconds <- lift (int_of_float (total_seconds uptime)) ;;
  ret (JDict [
    ("timestamp", JStr (isoformat timestamp));
    ("cpu", JDict [
      ("percent", JFloat (round2 cpu_percent));
      ("count_logical", json_of_count cpu_count);
      ("count_physical", json_of_count cpu_count_physical);
      ("frequency_mhz",
        match cpu_freq with
        | Some f => JFloat (round2 (freq_current f)) | None => JInt 0
        end);
      ("frequency_max_mhz",
        match cpu_freq with
        | Some f => JFloat (round2 (freq_max f)) | None => JInt 0
        end)]);
    ("memory", JDict [
      ("total_gb", JFloat (round2 (true_div (vm_total memory) (1024 ^ 3))));
      ("available_gb",
        JFloat (round2 (true_div (vm_available memory) (1024 ^ 3))));
      ("used_gb", JFloat (round2 (true_div (vm_used memory) (1024 ^ 3))));
      ("percent", JFloat (round2 (vm_percent memory)));
      ("swap_total_gb",
        JFloat (round2 (true_div (swap_total swap) (1024 ^ 3))));
      ("swap_used_gb", JFloat (round2 (true_div (swap_used swap) (1024 ^ 3))));
      ("swap_percent", JFloat (round2 (swap_percent swap)))]);
    ("disk", JDict [
      ("total_gb", JFloat (round2 (true_div (disk_total disk) (1024 ^ 3))));
      ("used_gb", JFloat (round2 (true_div (disk_used disk) (1024 ^ 3))));
      ("free_gb", JFloat (round2 (true_div (disk_free disk) (1024 ^ 3))));
      ("percent", JFloat (round2 (disk_percent disk)))]);
    ("network", JDict [
      ("bytes_sent_mb",
        JFloat (round2 (true_div (bytes_sent counters) (1024 ^ 2))));
      ("bytes_recv_mb",
        JFloat (round2 (true_div (bytes_recv counters) (1024 ^ 2))));
      ("packets_sent", JInt (packets_sent counters));
      ("packets_recv", JInt (packets_recv counters))]);
    ("process", JDict [
      ("memory_mb", JFloat (round2 (true_div (rss process_memory) (1024 ^ 2))));
      ("cpu_percent", JFloat (round2 process_cpu));
      ("threads", JInt threads)]);
    ("system", JDict [
      ("platform", JStr (platform_system h));
      ("platform_release", JStr (platform_release h));
      ("platform_version", JStr (platform_version h));
      ("architecture", JStr (platform_machine h));
      ("hostname", JStr (platform_node h));
      ("python_version", JStr (platform_python_version h));
      ("boot_time", JStr (isoformat boot_time));
      ("uptime_seconds", JInt uptime_seconds);
      ("uptime_human", JStr (split_dot_head (timedelta_str uptime)))])]).

(** The dict returned by the [except] clause of [get_system_info]. *)
Definition system_info_error (timestamp : datetime) : Json :=
  JDict [
    ("error", JStr "Internal error while collecting system information");
    ("timestamp", JStr (isoformat timestamp))].

Definition get_system_info : M Json :=
  log_event EvSystemInfo ;;
  try_except system_info_try
    (λ e, timestamp <- clock ;; ret (system_info_error timestamp)).

(** ** [get_bot_info] *)

Definition number_int (x : number) : result Z :=
  match x with Int z => Returns z | Float f => int_of_float f end.

Definition number_floordiv (x : number) (k : Z) : number :=
  match x with Int z => Int (z / k) | Float f => Float (float_floordiv f k) end.

Definition number_mod (x : number) (k : Z) : number :=
  match x with Int z => Int (z mod k) | Float f => Float (float_mod f k) end.

(** [sum(guild.member_count for guild in guilds)], from [acc]; adding
    [None] to an int raises [TypeError]. *)
Fixpoint sum_member_count (gs : list Guild) (acc : Z) : result Z :=
  match gs with
  | [] => Returns acc
  | g :: gs' =>
      match member_count g with
      | Some n => sum_member_count gs' (acc + n)
      | None => Raises (Exception "TypeError: unsupported operand type(s)")
      end
  end.

Definition bot_not_connected : Json :=
  JDict [("status", JStr "not_connected");
         ("message", JStr "Bot instance not initialized")].

Definition bot_info_error : Json :=
  JDict [("status", JStr "error");
         ("error", JStr "Internal error while collecting bot information")].

(** The body of the [try] of [get_bot_info]. *)
Definition bot_info_try (bot : Bot) : M Json :=
  bot_uptime <- match start_time bot with
                | Some t0 =>
                    now <- reading (λ h, Returns (time_time h)) ;;
                    ret (Float (float_sub now t0))
                | None => ret (Int 0)
                end ;;
  ready <- lift (is_ready bot) ;;
  u <- lift (user bot) ;;
  gs <- lift (guilds bot) ;;
  user_count <- lift (sum_member_count gs 0) ;;
  uptime_seconds <- lift (number_int bot_uptime) ;;
  hours <- lift (number_int (number_floordiv bot_uptime 3600)) ;;
  minutes <-
    lift (number_int (number_floordiv (number_mod bot_uptime 3600) 60)) ;;
  seconds <- lift (number_int (number_mod bot_uptime 60)) ;;
  lat <- lift (latency bot) ;;
  shards <- lift (shard_count bot) ;;
  commands <- match tree_get_commands bot with
              | Some r => lift r
              | None => ret 0%Z
              end ;;
  ret (JDict [
    ("status", JStr (if ready then "online" else "starting"));
    ("bot_name",
      JStr (match u with Some x => user_str x | None => "Unknown" end));
    ("bot_id", JInt (match u with Some x => user_id x | None => 0 end));
    ("guild_count", JInt (Z.of_nat (length gs)));
    ("user_count", JInt user_count);
    ("uptime_seconds", JInt uptime_seconds);
    ("uptime_human",
      JStr (pretty hours +:+ "h " +:+ pretty minutes +:+ "m "
            +:+ pretty seconds +:+ "s"));
    ("latency_ms",
      if float_truthy lat then JFloat (round2 (float_mul lat 1000))
      else JInt 0);
    ("shard_count",
      JInt (match shards with
            | Some n => if decide (n = 0%Z) then 1 else n
            | None => 1
            end));
    ("commands_count", JInt commands)]).

Definition get_bot_info : M Json :=
  log_event EvBotInfo ;;
  λ s, match bot_instance s with
       | None => ret bot_not_connected s
       | Some bot => try_except (bot_info_try bot) (λ e, ret bot_info_error) s
       end.

(** ** [broadcast_stats]

    One turn of the [while True] loop, up to the [asyncio.sleep(1)] at which
    the task is suspended. *)
Definition update_message (system bot : Json) : Json :=
  JDict [("type", JStr "update"); ("system", system); ("bot", bot)].

Definition broadcast_stats_turn : M unit :=
  try_except
    (conns <- get_connections ;;
     match conns with
     | [] => ret ()
     | _ :: _ =>
         system <- get_system_info ;;
         bot <- get_bot_info ;;
         broadcast (update_message system bot)
     end)
    (λ e, ret ()).

(** ** Observing a run *)

(** The calls recorded between state [s] and a later state [s']. *)
Definition new_events (s s' : State) : list Event :=
  drop (length (trace s)) (trace s').

(** The connections of the visits of a pass that did not end in a
    delivered message: the connection was not [CONNECTED], or its
    [send_json] raised. *)
Fixpoint failed_visits (evs : list Event) : list WebSocket :=
  match evs with
  | [] => []
  | EvClientState ws st :: evs' =>
      if decide (st = CONNECTED) then failed_visits evs'
      else ws :: failed_visits evs'
  | EvSendJson ws _ false :: evs' => ws :: failed_visits evs'
  | _ :: evs' => failed_visits evs'
  end.

(** Number of [send_json] calls on [ws] that returned. *)
Fixpoint deliveries (ws : WebSocket) (evs : list Event) : nat :=
  match evs with
  | [] => 0
  | EvSendJson ws' _ true :: evs' =>
      if decide (ws' = ws) then S (deliveries ws evs') else deliveries ws evs'
  | _ :: evs' => deliveries ws evs'
  end.

(** A computation that only looks at the host: it leaves the state as it
    is and its outcome is the same in two states with the same host. *)
Definition host_only {A} (c : M A) : Prop :=
  ∀ s, (c s).1 = s ∧ ∀ s', host s' = host s → (c s').2 = (c s).2.

(** An event a broadcast of [message] may record. *)
Definition pass_event (message : Json) (e : Event) : Prop :=
  match e with
  | EvClientState _ _ => True
  | EvSendJson _ m _ => m = message
  | _ => False
  end.

(** What the first loop of [broadcast] does on the transport: from
    transport state [n] it visits the connections in order, records [evs]
    and leaves the transport in [n']. *)
Inductive pass_trace (message : Json)
    : Net → list WebSocket → list Event → Net → Prop :=
| pass_done n :
    pass_trace message n [] [] n
| pass_not_connected n c conns evs n' :
    client_state n c ≠ CONNECTED →
    pass_trace message n conns evs n' →
    pass_trace message n (c :: conns)
      (EvClientState c (client_state n c) :: evs) n'
| pass_send n c n1 r conns evs n' :
    client_state n c = CONNECTED →
    ws_send_json n c message = (n1, r) →
    pass_trace message n1 conns evs n' →
    pass_trace message n (c :: conns)
      (EvClientState c CONNECTED :: EvSendJson c message (is_returns r) :: evs)
      n'.

End Program.

Notation "x <- c ;; k" := (bind c (λ x, k))
  (at level 100, c at next level, right associativity) : py_scope.
Notation "c ;; k" := (bind c (λ _, k))
  (at level 100, right associativity) : py_scope.

(** ** The callers: session endpoint, HTTP handlers, scheduler loop, start-up *)

Section Callers.
Context {float datetime timedelta : Type} `{!PyLib float datetime timedelta}.
Context {Net : Type} `{!Transport (float:=float) Net}.

Local Abbreviation State := (@State float datetime Net).
Local Abbreviation Json := (@Json float).
Local Abbreviation Event := (@Event float).
Local Abbreviation Bot := (@Bot float).
Local Abbreviation M := (@M float datetime Net).
Local Open Scope py_scope.

(** What a session reads from its websocket:
    [await asyncio.wait_for(websocket.receive_text(), timeout=1.0)] returns
    a text, times out ([None]: the [asyncio.TimeoutError] the inner [try]
    swallows) or raises something else. *)
Class Inbox : Type := {
  ws_receive_text : Net → WebSocket → Net * result (option string)
}.

Context `{!Inbox}.

(** One turn of the [while True] of [websocket_endpoint]: the wait for a
    client message, with the time-out swallowed; the text is dropped. *)
Definition receive_turn (websocket : WebSocket) : M unit :=
  λ s, let '(n', r) := ws_receive_text (net s) websocket in
       (with_net n' s,
        match r with Returns _ => Returns () | Raises e => Raises e end).

(** The [while True] of [websocket_endpoint], followed for [turns] turns.
    The loop has no exit of its own: [false] says it is still running. *)
Fixpoint receive_loop (turns : nat) (websocket : WebSocket) : M bool :=
  match turns with
  | 0 => ret false
  | S turns' => receive_turn websocket ;; receive_loop turns' websocket
  end.

Definition initial_message (system bot : Json) : Json :=
  JDict [("type", JStr "initial"); ("system", system); ("bot", bot)].

(** [websocket_endpoint], its loop followed for [turns] turns. The result
    is [true] when the coroutine has returned and [false] when it is still
    in its loop. Both [except] clauses do the same to the state. *)
Definition websocket_endpoint (turns : nat) (websocket : WebSocket) : M bool :=
  connect websocket ;;
  try_except
    (system <- get_system_info ;;
     bot <- get_bot_info ;;
     send_json websocket (initial_message system bot) ;;
     receive_loop turns websocket)
    (λ e, disconnect websocket ;; ret true).

(** The state in which a session sends its first message: the transport
    as [accept] left it, the connection registered, the two collector
    calls made. *)
Definition session_ready (websocket : WebSocket) (n1 : Net) (s : State)
    : State :=
  with_event EvBotInfo
    (with_event EvSystemInfo
       (with_connections (connections s ++ [websocket])
          (with_event (EvAccept websocket true) (with_net n1 s)))).

(** The HTTP handlers [/api/system], [/api/bot] and [/api/combined]. *)
Definition get_system_stats : M Json := get_system_info.

Definition get_bot_stats : M Json := get_bot_info.

Definition get_combined_stats : M Json :=
  system <- get_system_info ;;
  bot <- get_bot_info ;;
  ret (JDict [("system", system); ("bot", bot)]).

(** [broadcast_stats], followed for [turns] turns of its [while True]. *)
Fixpoint broadcast_stats (turns : nat) : M unit :=
  match turns with
  | 0 => ret ()
  | S turns' => broadcast_stats_turn ;; broadcast_stats turns'
  end.

(** [global bot_instance; bot_instance = bot] *)
Definition set_bot_instance (bot : option Bot) : M unit :=
  λ s, ({| manager := manager s; bot_instance := bot; host := host s;
           net := net s; trace := trace s |}, Returns ()).

(** The arguments of [uvicorn.Config]. *)
Record Config : Type := {
  config_host : string;
  config_port : Z;
  config_log_level : string;
  config_access_log : bool
}.

(** [start_webgui]. [uvicorn] says whether the import at the top of the
    file succeeded; [create_task] is how
    [asyncio.create_task(broadcast_stats())] ends. The result is the
    configuration of the server returned, [None] for a bare [return]. *)
Definition start_webgui (uvicorn : bool) (create_task : result unit)
    (bot : option Bot) (host : string) (port : Z) : M (option Config) :=
  set_bot_instance bot ;;
  if uvicorn then
    lift create_task ;;
    ret (Some {| config_host := host; config_port := port;
                 config_log_level := "info"; config_access_log := true |})
  else ret None.

(** [start_webgui_async]; [serve] is how [await server.serve()] ends for
    a given configuration. *)
Definition start_webgui_async (uvicorn : bool) (create_task : result unit)
    (serve : Config → result unit)
    (bot : option Bot) (host : string) (port : Z) : M unit :=
  set_bot_instance bot ;;
  if uvicorn then
    lift create_task ;;
    lift (serve {| config_host := host; config_port := port;
                   config_log_level := "info"; config_access_log := true |})
  else ret ().

(** *** What the websocket library guarantees about [accept]

    [websocket.accept()] sends the accept message, which the library lets
    through only while the connection is still being opened; a returned
    [accept] leaves it open. So an [accept] that follows a returned
    [accept] on the same connection does not return: it raises. *)
Definition accept_returns_once : Prop :=
  ∀ n ws n1, ws_accept n ws = (n1, Returns ()) →
  ∀ n2 r, ws_accept n1 ws = (n2, r) → r ≠ Returns ().

(** *** What a pass leaves in the registry

    The entries of [conns] that a pass from transport state [n] leaves
    alone: those read as [CONNECTED] whose [send_json] returns. *)
Fixpoint pass_survivors (message : Json) (n : Net) (conns : list WebSocket)
    : list WebSocket :=
  match conns with
  | [] => []
  | c :: conns' =>
      if decide (client_state n c = CONNECTED) then
        let '(n1, r) := ws_send_json n c message in
        if is_returns r then c :: pass_survivors message n1 conns'
        else pass_survivors message n1 conns'
      else pass_survivors message n conns'
  end.

(** *** More ways to look at a record of calls *)

(** The connections whose [client_state] was read, in order. *)
Fixpoint state_reads (evs : list Event) : list WebSocket :=
  match evs with
  | [] => []
  | EvClientState ws _ :: evs' => ws :: state_reads evs'
  | _ :: evs' => state_reads evs'
  end.

(** The connections whose [client_state] was read as [CONNECTED]. *)
Fixpoint connected_reads (evs : list Event) : list WebSocket :=
  match evs with
  | [] => []
  | EvClientState ws st :: evs' =>
      if decide (st = CONNECTED) then ws :: connected_reads evs'
      else connected_reads evs'
  | _ :: evs' => connected_reads evs'
  end.

(** The connections [send_json] was called on, in order. *)
Fixpoint send_targets (evs : list Event) : list WebSocket :=
  match evs with
  | [] => []
  | EvSendJson ws _ _ :: evs' => ws :: send_targets evs'
  | _ :: evs' => send_targets evs'
  end.

End Callers.

(** The characters of a string. *)
Fixpoint chars (s : string) : list ascii :=
  match s with
  | EmptyString => []
  | String c s' => c :: chars s'
  end.

(** ** A concrete instance

    Integers stand for floats and dates; a transport is described by the
    connections that are not connected and those whose sends raise. *)

Module Fixture.

#[export] Instance lib : PyLib Z Z Z := {|
  round2 := id;
  true_div := Z.div;
  float_sub := Z.sub;
  float_mul := Z.mul;
  float_floordiv := Z.div;
  float_mod := Z.modulo;
  float_truthy := λ x, negb (Z.eqb x 0);
  int_of_float := Returns;
  datetime_fromtimestamp := Returns;
  datetime_sub := Z.sub;
  isoformat := pretty;
  total_seconds := id;
  timedelta_str := pretty
|}.

Record Wire : Type := {
  closed : list WebSocket;    (* client_state is DISCONNECTED *)
  broken : list WebSocket     (* send_json raises *)
}.

#[export] Instance wire_transport : Transport (float:=Z) Wire := {|
  client_state := λ n ws,
    if bool_decide (ws ∈ closed n) then DISCONNECTED else CONNECTED;
  ws_accept := λ n ws, (n, Returns ());
  ws_send_json := λ n ws m,
    (n, if bool_decide (ws ∈ broken n) then
          Raises (Exception "WebSocketDisconnect") else Returns ())
|}.

Definition process : Process (float:=Z) := {|
  memory_info := Returns {| rss := 52428800 |};
  process_cpu_percent := Returns 3%Z;
  num_threads := Returns 8%Z
|}.

Definition healthy : Host (float:=Z) (datetime:=Z) := {|
  psutil_cpu_percent := Returns 12%Z;
  psutil_cpu_count := λ logical, Returns (Some (if logical then 8 else 4)%Z);
  psutil_cpu_freq := Returns None;
  psutil_virtual_memory :=
    Returns {| vm_total := 17179869184; vm_available := 8589934592;
               vm_used := 8589934592; vm_percent := 50%Z |};
  psutil_swap_memory :=
    Returns {| swap_total := 0; swap_used := 0; swap_percent := 0%Z |};
  psutil_disk_usage := λ path,
    Returns {| disk_total := 107374182400; disk_used := 53687091200;
               disk_free := 53687091200; disk_percent := 50%Z |};
  psutil_net_io_counters :=
    Returns (Some {| bytes_sent := 1048576; bytes_recv := 2097152;
                     packets_sent := 10; packets_recv := 20 |});
  os_getpid := 4242;
  psutil_Process := λ pid, Returns process;
  psutil_boot_time := Returns 1000%Z;
  datetime_now := 5000%Z;
  time_time := 5000%Z;
  platform_system := "Linux";
  platform_release := "6.1";
  platform_version := "#1 SMP";
  platform_machine := "x86_64";
  platform_node := "erm";
  platform_python_version := "3.11.4"
|}.

(** A host on which [psutil.cpu_percent] raises. *)
Definition faulty : Host (float:=Z) (datetime:=Z) := {|
  psutil_cpu_percent := Raises (Exception "AccessDenied");
  psutil_cpu_count := psutil_cpu_count healthy;
  psutil_cpu_freq := psutil_cpu_freq healthy;
  psutil_virtual_memory := psutil_virtual_memory healthy;
  psutil_swap_memory := psutil_swap_memory healthy;
  psutil_disk_usage := psutil_disk_usage healthy;
  psutil_net_io_counters := psutil_net_io_counters healthy;
  os_getpid := os_getpid healthy;
  psutil_Process := psutil_Process healthy;
  psutil_boot_time := psutil_boot_time healthy;
  datetime_now := 7000%Z;
  time_time := 7000%Z;
  platform_system := platform_system healthy;
  platform_release := platform_release healthy;
  platform_version := platform_version healthy;
  platform_machine := platform_machine healthy;
  platform_node := platform_node healthy;
  platform_python_version := platform_python_version healthy
|}.

(** A bot one of whose guilds has no member count yet. *)
Definition half_ready_bot : Bot (float:=Z) := {|
  start_time := Some 4000%Z;
  is_ready := Returns false;
  user := Returns None;
  guilds := Returns [ {| member_count := Some 10%Z |};
                      {| member_count := None |} ];
  latency := Returns 0%Z;
  shard_count := Returns None;
  tree_get_commands := None
|}.

Definition state (conns : list WebSocket) (bot : option (Bot (float:=Z)))
    (h : Host (float:=Z) (datetime:=Z)) (n : Wire)
    : State (float:=Z) (datetime:=Z) (Net:=Wire) :=
  {| manager := {| active_connections := conns |};
     bot_instance := bot; host := h; net := n; trace := [] |}.

Definition all_up : Wire := {| closed := []; broken := [] |}.

(** On a [Wire] a closed connection's receive raises; the others are
    silent (the wait times out). *)
#[export] Instance wire_inbox : Inbox (Net:=Wire) := {|
  ws_receive_text := λ n ws,
    (n, if bool_decide (ws ∈ closed n) then
          Raises (Exception "WebSocketDisconnect") else Returns None)
|}.

(** A transport that is always up and whose state is what the client
    will do next: send a text, stay silent for a turn, and hang up when
    the list is used up. *)
Definition Tape : Type := list (option string).

#[export] Instance tape_transport : Transport (float:=Z) Tape := {|
  client_state := λ n ws, CONNECTED;
  ws_accept := λ n ws, (n, Returns ());
  ws_send_json := λ n ws m, (n, Returns ())
|}.

#[export] Instance tape_inbox : Inbox (Net:=Tape) := {|
  ws_receive_text := λ n ws,
    match n with
    | [] => ([], Raises (Exception "WebSocketDisconnect"))
    | x :: n' => (n', Returns x)
    end
|}.

Definition tape_state (conns : list WebSocket) (n : Tape)
    : State (float:=Z) (datetime:=Z) (Net:=Tape) :=
  {| manager := {| active_connections := conns |};
     bot_instance := None; host := healthy; net := n; trace := [] |}.

Definition ready_bot : Bot (float:=Z) := {|
  start_time := None;
  is_ready := Returns true;
  user := Returns (Some {| user_str := "erm#0001"; user_id := 42 |});
  guilds := Returns [ {| member_count := Some 10%Z |};
                      {| member_count := Some 5%Z |} ];
  latency := Returns 0%Z;
  shard_count := Returns (Some 0%Z);
  tree_get_commands := Some (Returns 7%Z)
|}.

(** A transport that remembers which connections it has accepted: a
    connection is accepted once, a second [accept] raises. *)
Definition Lobby : Type := list WebSocket.

#[export] Instance lobby_transport : Transport (float:=Z) Lobby := {|
  client_state := λ n ws,
    if bool_decide (ws ∈ n) then CONNECTED else CONNECTING;
  ws_accept := λ n ws,
    if bool_decide (ws ∈ n) then
      (n, Raises (Exception "RuntimeError: Unexpected ASGI message"))
    else (ws :: n, Returns ());
  ws_send_json := λ n ws m, (n, Returns ())
|}.

Definition lobby_state (conns : list WebSocket) (n : Lobby)
    : State (float:=Z) (datetime:=Z) (Net:=Lobby) :=
  {| manager := {| active_connections := conns |};
     bot_instance := None; host := healthy; net := n; trace := [] |}.

(** A transport on which every handshake fails. *)
Inductive Shut : Type := shut.

#[export] Instance shut_transport : Transport (float:=Z) Shut := {|
  client_state := λ n ws, DISCONNECTED;
  ws_accept := λ n ws, (n, Raises (Exception "handshake failed"));
  ws_send_json := λ n ws m, (n, Raises (Exception "WebSocketDisconnect"))
|}.

#[export] Instance shut_inbox : Inbox (Net:=Shut) := {|
  ws_receive_text := λ n ws, (n, Raises (Exception "WebSocketDisconnect"))
|}.

Definition shut_state (conns : list WebSocket)
    : State (float:=Z) (datetime:=Z) (Net:=Shut) :=
  {| manager := {| active_connections := conns |};
     bot_instance := None; host := healthy; net := shut; trace := [] |}.

(** A host without network interfaces. *)
Definition no_nics : Host (float:=Z) (datetime:=Z) := {|
  psutil_cpu_percent := psutil_cpu_percent healthy;
  psutil_cpu_count := psutil_cpu_count healthy;
  psutil_cpu_freq := psutil_cpu_freq healthy;
  psutil_virtual_memory := psutil_virtual_memory healthy;
  psutil_swap_memory := psutil_swap_memory healthy;
  psutil_disk_usage := psutil_disk_usage healthy;
  psutil_net_io_counters := Returns None;
  os_getpid := os_getpid healthy;
  psutil_Process := psutil_Process healthy;
  psutil_boot_time := psutil_boot_time healthy;
  datetime_now := 9000%Z;
  time_time := 9000%Z;
  platform_system := platform_system healthy;
  platform_release := platform_release healthy;
  platform_version := platform_version healthy;
  platform_machine := platform_machine healthy;
  platform_node := platform_node healthy;
  platform_python_version := platform_python_version healthy
|}.

End Fixture.

(** * Properties *)

Local Open Scope py_scope.

(** ** Facts about the list operations *)

Section ListFacts.
Context {A : Type} `{EqDecision A}.
Implicit Types (x y : A) (l k : list A).

Lemma list_contains_true x l : list_contains x l = true ↔ x ∈ l.
Proof. unfold list_contains. apply bool_decide_eq_true. Qed.

Lemma list_contains_false x l : list_contains x l = false ↔ x ∉ l.
Proof. unfold list_contains. apply bool_decide_eq_false. Qed.

Lemma list_remove_split x l l' :
  list_remove x l = Some l' →
  ∃ l1 l2, l = l1 ++ x :: l2 ∧ l' = l1 ++ l2 ∧ x ∉ l1.
Proof.
  revert l'. induction l as [|y l IH]; intros l'; simpl; [done|].
  destruct (decide (x = y)) as [->|Hne].
  - intros [= <-]. exists [], l. split_and!; [done..|]. apply not_elem_of_nil.
  - destruct (list_remove x l) as [k|] eqn:Hk; simpl; [|done].
    intros [= <-]. destruct (IH k eq_refl) as (l1 & l2 & -> & -> & Hl1).
    exists (y :: l1), l2. split_and!; [done..|].
    rewrite not_elem_of_cons. done.
Qed.

Lemma list_remove_elem_of x l : x ∈ l → is_Some (list_remove x l).
Proof.
  induction l as [|y l IH]; simpl.
  - intros Hx. by apply elem_of_nil in Hx.
  - intros Hx. destruct (decide (x = y)); [by eexists|].
    apply elem_of_cons in Hx as [?|Hx]; [done|].
    destruct (IH Hx) as [k ->]. by eexists.
Qed.

Lemma list_remove_Permutation x l l' : list_remove x l = Some l' → l ≡ₚ x :: l'.
Proof.
  intros (l1 & l2 & -> & -> & _)%list_remove_split.
  by rewrite Permutation_middle.
Qed.

Lemma list_remove_sublist x l l' : list_remove x l = Some l' → l' `sublist_of` l.
Proof.
  intros (l1 & l2 & -> & -> & _)%list_remove_split.
  apply sublist_app; [done|]. by apply sublist_cons.
Qed.

Lemma filter_all (P : A → Prop) `{∀ y, Decision (P y)} l :
  (∀ y, y ∈ l → P y) → filter P l = l.
Proof.
  induction l as [|y l IH]; intros Hall; [done|].
  rewrite filter_cons_True by (apply Hall; left).
  f_equal. apply IH. intros z Hz. apply Hall. by right.
Qed.

Lemma filter_ext_elem (P Q : A → Prop)
    `{∀ y, Decision (P y)} `{∀ y, Decision (Q y)} l :
  (∀ y, y ∈ l → P y ↔ Q y) → filter P l = filter Q l.
Proof.
  induction l as [|y l IH]; intros Hext; [done|].
  assert (filter P l = filter Q l) as Hrest.
  { apply IH. intros z Hz. apply Hext. by right. }
  pose proof (Hext y (list_elem_of_here y l)) as Hy.
  rewrite !filter_cons.
  destruct (decide (P y)), (decide (Q y)); try tauto; by rewrite Hrest.
Qed.

Lemma list_remove_filter x l l' :
  NoDup l → list_remove x l = Some l' → l' = filter (λ y, y ≠ x) l.
Proof.
  intros Hnd (l1 & l2 & -> & -> & Hl1)%list_remove_split.
  apply NoDup_app in Hnd as (_ & Hdisj & [Hl2 _]%NoDup_cons).
  rewrite !filter_app, filter_cons_False by (intros ?; done).
  f_equal; symmetry; apply filter_all; intros y Hy ->; [done|].
  by apply (Hdisj x); [|left].
Qed.

Lemma occurrences_nil x : occurrences x [] = 0.
Proof. done. Qed.

Lemma occurrences_cons x y l :
  occurrences x (y :: l) =
  if decide (y = x) then S (occurrences x l) else occurrences x l.
Proof. unfold occurrences. rewrite filter_cons. by destruct (decide (y = x)). Qed.

Lemma occurrences_app x l k :
  occurrences x (l ++ k) = occurrences x l + occurrences x k.
Proof. unfold occurrences. by rewrite filter_app, length_app. Qed.

Lemma occurrences_Permutation x l k :
  l ≡ₚ k → occurrences x l = occurrences x k.
Proof. unfold occurrences. by intros ->. Qed.

Lemma occurrences_zero x l : occurrences x l = 0 ↔ x ∉ l.
Proof.
  induction l as [|y l IH]; [by split; [intros _; apply not_elem_of_nil|]|].
  rewrite occurrences_cons, not_elem_of_cons.
  destruct (decide (y = x)) as [->|]; [split; [done|intros [[] _]; done]|].
  rewrite IH. intuition congruence.
Qed.

Lemma occurrences_NoDup x l : NoDup l → occurrences x l ≤ 1.
Proof.
  induction 1 as [|y l Hy Hnd IH]; [by rewrite occurrences_nil; lia|].
  rewrite occurrences_cons. destruct (decide (y = x)) as [->|]; [|done].
  apply occurrences_zero in Hy. lia.
Qed.

End ListFacts.

Section Theory.
Context {float datetime timedelta : Type} `{!PyLib float datetime timedelta}.
Context {Net : Type} `{!Transport (float:=float) Net}.

Local Abbreviation State := (@State float datetime Net).
Local Abbreviation Json := (@Json float).
Local Abbreviation Event := (@Event float).
Local Abbreviation Host := (@Host float datetime).
Local Abbreviation M := (@M float datetime Net).
Local Abbreviation host_only := (@host_only float datetime Net).
Implicit Types (s : State) (c ws : WebSocket) (msg : Json).
Implicit Types (l conns : list WebSocket) (evs : list Event).

(** ** The registry *)

Lemma with_connections_id s : with_connections (connections s) s = s.
Proof. by destruct s as [[?] ? ? ? ?]. Qed.

Lemma connect_returns s c s' :
  connect c s = (s', Returns ()) → connections s' = connections s ++ [c].
Proof.
  unfold connect, bind, accept, get_connections, set_connections.
  destruct (ws_accept (net s) c) as [n' [[]|e]]; simpl; [|done].
  by intros [= <-].
Qed.

Lemma connect_raises s c s' e :
  connect c s = (s', Raises e) → connections s' = connections s.
Proof.
  unfold connect, bind, accept, get_connections, set_connections.
  destruct (ws_accept (net s) c) as [n' [[]|e']]; simpl; [done|].
  by intros [= <- _].
Qed.

Lemma disconnect_absent s c :
  c ∉ connections s → disconnect c s = (s, Returns ()).
Proof.
  intros Hc%list_contains_false. unfold disconnect, bind, get_connections.
  by rewrite Hc.
Qed.

Lemma disconnect_present s c l' :
  list_remove c (connections s) = Some l' →
  disconnect c s = (with_connections l' s, Returns ()).
Proof.
  intros Hrm. unfold disconnect, bind, get_connections. rewrite Hrm.
  destruct (list_contains c (connections s)) eqn:Hc; [done|].
  apply list_contains_false in Hc.
  apply list_remove_split in Hrm as (l1 & l2 & Hl & _).
  exfalso. apply Hc. rewrite Hl, elem_of_app, elem_of_cons. auto.
Qed.

(** [disconnect] returns from every state: the membership test guards the
    [remove] that could raise. *)
Lemma disconnect_total s c :
  ∃ s', disconnect c s = (s', Returns ())
        ∧ net s' = net s ∧ trace s' = trace s
        ∧ host s' = host s ∧ bot_instance s' = bot_instance s
        ∧ connections s' `sublist_of` connections s
        ∧ (c ∈ connections s → connections s ≡ₚ c :: connections s')
        ∧ (NoDup (connections s) →
           connections s' = filter (λ y, y ≠ c) (connections s)).
Proof.
  destruct (decide (c ∈ connections s)) as [Hc|Hc].
  - destruct (list_remove_elem_of _ _ Hc) as [l' Hrm].
    exists (with_connections l' s). rewrite (disconnect_present _ _ _ Hrm).
    split_and!; try done.
    + by eapply list_remove_sublist.
    + intros _. by eapply list_remove_Permutation.
    + intros Hnd. by eapply list_remove_filter.
  - exists s. rewrite (disconnect_absent _ _ Hc). split_and!; try done.
    intros _. symmetry. apply filter_all. by intros y Hy ->.
Qed.

(** ** The sending loop of [broadcast] *)

Lemma new_events_app s s' evs : trace s' = trace s ++ evs → new_events s s' = evs.
Proof. unfold new_events. intros ->. by rewrite drop_app_length. Qed.

Lemma broadcast_visit_not_connected msg l c s :
  client_state (net s) c ≠ CONNECTED →
  broadcast_visit msg l c s
  = (with_event (EvClientState c (client_state (net s) c)) s,
     Returns (l ++ [c])).
Proof.
  intros Hst. unfold broadcast_visit, try_except, bind, read_client_state.
  simpl. by destruct (decide (client_state (net s) c = CONNECTED)).
Qed.

Lemma broadcast_visit_send msg l c s n1 r :
  client_state (net s) c = CONNECTED →
  ws_send_json (net s) c msg = (n1, r) →
  broadcast_visit msg l c s
  = (with_event (EvSendJson c msg (is_returns r))
       (with_net n1 (with_event (EvClientState c CONNECTED) s)),
     Returns (if is_returns r then l else l ++ [c])).
Proof.
  intros Hst Hsend.
  unfold broadcast_visit, try_except, bind, read_client_state, send_json.
  simpl. rewrite Hst. simpl. rewrite Hsend. by destruct r as [[]|e].
Qed.

Lemma broadcast_loop msg conns :
  ∀ l s, ∃ s' evs,
    for_fold conns l (broadcast_visit msg) s
    = (s', Returns (l ++ failed_visits evs))
    ∧ pass_trace msg (net s) conns evs (net s')
    ∧ trace s' = trace s ++ evs
    ∧ manager s' = manager s
    ∧ host s' = host s
    ∧ bot_instance s' = bot_instance s.
Proof.
  induction conns as [|c conns IH]; intros l s.
  - exists s, []. simpl. unfold ret. rewrite !app_nil_r.
    split_and!; try done. constructor.
  - simpl. unfold bind at 1.
    destruct (decide (client_state (net s) c = CONNECTED)) as [Hst|Hst].
    + destruct (ws_send_json (net s) c msg) as [n1 r] eqn:Hsend.
      rewrite (broadcast_visit_send _ _ _ _ _ _ Hst Hsend).
      match goal with |- context [for_fold conns ?l1 _ ?s1] =>
        destruct (IH l1 s1) as (s' & evs & -> & Hpass & Htr & Hm & Hh & Hb)
      end.
      exists s', (EvClientState c CONNECTED
                  :: EvSendJson c msg (is_returns r) :: evs).
      split_and!; try done.
      * simpl. destruct r as [[]|e]; simpl; [done|].
        by rewrite <- app_assoc.
      * by eapply pass_send.
      * rewrite Htr. simpl. by rewrite <- !app_assoc.
    + rewrite (broadcast_visit_not_connected _ _ _ _ Hst).
      match goal with |- context [for_fold conns ?l1 _ ?s1] =>
        destruct (IH l1 s1) as (s' & evs & -> & Hpass & Htr & Hm & Hh & Hb)
      end.
      exists s', (EvClientState c (client_state (net s) c) :: evs).
      split_and!; try done.
      * simpl. destruct (decide (client_state (net s) c = CONNECTED)); [done|].
        by rewrite <- app_assoc.
      * by apply pass_not_connected.
      * rewrite Htr. simpl. by rewrite <- !app_assoc.
Qed.

(** *** What a pass records *)

Lemma pass_trace_failed_sublist msg n conns evs n' :
  pass_trace msg n conns evs n' → failed_visits evs `sublist_of` conns.
Proof.
  induction 1 as [n|n c conns evs n' Hst _ IH|n c n1 r conns evs n' Hst Hs _ IH];
    simpl.
  - done.
  - destruct (decide (client_state n c = CONNECTED)); [done|].
    by apply sublist_skip.
  - destruct r as [[]|e]; simpl; [by apply sublist_cons|by apply sublist_skip].
Qed.

Lemma pass_trace_events msg n conns evs n' :
  pass_trace msg n conns evs n' → Forall (pass_event msg) evs.
Proof.
  induction 1; repeat constructor; done.
Qed.

Lemma pass_trace_occurrences msg n conns evs n' c :
  pass_trace msg n conns evs n' →
  occurrences c conns = occurrences c (failed_visits evs) + deliveries c evs.
Proof.
  induction 1 as [n|n c' conns evs n' Hst _ IH|n c' n1 r conns evs n' Hst Hs _ IH];
    simpl.
  - done.
  - destruct (decide (client_state n c' = CONNECTED)); [done|].
    rewrite !occurrences_cons. destruct (decide (c' = c)); lia.
  - rewrite occurrences_cons.
    destruct r as [[]|e]; simpl; rewrite ?occurrences_cons;
      destruct (decide (c' = c)); lia.
Qed.

Lemma pass_trace_visited msg n conns evs n' c :
  pass_trace msg n conns evs n' →
  c ∈ conns → ∃ st, EvClientState c st ∈ evs.
Proof.
  induction 1 as [n|n c' conns evs n' Hst _ IH|n c' n1 r conns evs n' Hst Hs _ IH].
  - intros Hc. by apply elem_of_nil in Hc.
  - intros [->|Hc]%elem_of_cons; [eexists; left|].
    destruct (IH Hc) as [st Hin]. exists st. by right.
  - intros [->|Hc]%elem_of_cons; [eexists; left|].
    destruct (IH Hc) as [st Hin]. exists st. by do 2 right.
Qed.

(** A send is only attempted right after the connection was read as
    [CONNECTED]. *)
Lemma pass_trace_send_connected msg n conns evs n' c m ok :
  pass_trace msg n conns evs n' →
  EvSendJson c m ok ∈ evs → EvClientState c CONNECTED ∈ evs.
Proof.
  induction 1 as [n|n c' conns evs n' Hst _ IH|n c' n1 r conns evs n' Hst Hs _ IH].
  - intros Hin. by apply elem_of_nil in Hin.
  - intros [?|Hin]%elem_of_cons; [done|]. right. by apply IH.
  - intros [?|[Heq|Hin]%elem_of_cons]%elem_of_cons; [done| |].
    + injection Heq as -> _ _. left.
    + do 2 right. by apply IH.
Qed.

Lemma deliveries_zero c evs :
  (∀ m, EvSendJson c m true ∉ evs) → deliveries c evs = 0.
Proof.
  induction evs as [|e evs IH]; intros Hno; [done|].
  assert (deliveries c evs = 0) as Hrest.
  { apply IH. intros m Hin. apply (Hno m). by right. }
  destruct e as [| |c' m [] | |]; simpl; try done.
  destruct (decide (c' = c)) as [->|]; [|done].
  exfalso. apply (Hno m). left.
Qed.

Lemma deliveries_pos c m evs : EvSendJson c m true ∈ evs → 0 < deliveries c evs.
Proof.
  induction evs as [|e evs IH]; [by intros ?%elem_of_nil|].
  intros [<-|Hin]%elem_of_cons; simpl.
  - destruct (decide (c = c)); [lia|done].
  - specialize (IH Hin). destruct e as [| |c' m' [] | |]; simpl; try done.
    destruct (decide (c' = c)); lia.
Qed.

(** A connection that is read as [CONNECTED] whenever it is visited gets
    a send. *)
Lemma pass_trace_attempted msg n conns evs n' c :
  pass_trace msg n conns evs n' →
  c ∈ conns →
  (∀ st, EvClientState c st ∈ evs → st = CONNECTED) →
  ∃ ok, EvSendJson c msg ok ∈ evs.
Proof.
  induction 1 as [n|n c' conns evs n' Hst _ IH|n c' n1 r conns evs n' Hst Hs _ IH].
  - intros Hc. by apply elem_of_nil in Hc.
  - intros [->|Hc]%elem_of_cons Hup.
    + exfalso. apply Hst, Hup. left.
    + destruct IH as [ok Hin]; [done| |].
      * intros st Hin. apply Hup. by right.
      * exists ok. by right.
  - intros [->|Hc]%elem_of_cons Hup.
    + eexists. right. left.
    + destruct IH as [ok Hin]; [done| |].
      * intros st Hin. apply Hup. by do 2 right.
      * exists ok. by do 2 right.
Qed.

(** ** The clean-up loop of [broadcast] *)

Lemma cleanup_loop (d : list WebSocket) :
  ∀ s, ∃ s',
    for_each d disconnect s = (s', Returns ())
    ∧ net s' = net s ∧ trace s' = trace s
    ∧ host s' = host s ∧ bot_instance s' = bot_instance s
    ∧ connections s' `sublist_of` connections s
    ∧ (d ⊆+ connections s → connections s ≡ₚ d ++ connections s')
    ∧ (d ⊆+ connections s → NoDup (connections s) →
       connections s' = filter (λ y, y ∉ d) (connections s)).
Proof.
  induction d as [|c d IH]; intros s.
  - exists s. split_and!; try done.
    intros _ _. symmetry. apply filter_all. intros y _. apply not_elem_of_nil.
  - destruct (disconnect_total s c)
      as (s1 & Hrun1 & Hn1 & Ht1 & Hh1 & Hb1 & Hsub1 & Hperm1 & Hfil1).
    destruct (IH s1) as (s' & Hrun & Hn & Ht & Hh & Hb & Hsub & Hperm & Hfil).
    exists s'. simpl. unfold bind at 1. rewrite Hrun1, Hrun.
    assert (c :: d ⊆+ connections s →
            connections s ≡ₚ c :: connections s1 ∧ d ⊆+ connections s1)
      as Hstep.
    { intros Hd. assert (c ∈ connections s) as Hc.
      { eapply elem_of_submseteq; [left|exact Hd]. }
      specialize (Hperm1 Hc). split; [done|].
      rewrite Hperm1 in Hd. by apply (submseteq_app_inv_l _ _ [c]). }
    split_and!; try congruence.
    + by etrans.
    + intros (Hp & Hd)%Hstep. rewrite Hp, (Hperm Hd). done.
    + intros (Hp & Hd)%Hstep Hnd.
      rewrite (Hfil Hd) by (by eapply sublist_NoDup).
      rewrite (Hfil1 Hnd), list_filter_filter.
      apply list_filter_iff. intros y. rewrite not_elem_of_cons. tauto.
Qed.

(** ** A whole [broadcast] *)

Lemma broadcast_run msg s :
  ∃ s' evs,
    broadcast msg s = (s', Returns ())
    ∧ trace s' = trace s ++ evs
    ∧ pass_trace msg (net s) (connections s) evs (net s')
    ∧ host s' = host s ∧ bot_instance s' = bot_instance s
    ∧ connections s' `sublist_of` connections s
    ∧ connections s ≡ₚ failed_visits evs ++ connections s'
    ∧ (NoDup (connections s) →
       connections s' = filter (λ y, y ∉ failed_visits evs) (connections s)).
Proof.
  destruct (broadcast_loop msg (connections s) [] s)
    as (s1 & evs & Hrun1 & Hpass & Htr & Hm & Hh & Hb).
  destruct (cleanup_loop (failed_visits evs) s1)
    as (s' & Hrun & Hn & Ht & Hh' & Hb' & Hsub & Hperm & Hfil).
  assert (connections s1 = connections s) as Hconns.
  { unfold connections. by rewrite Hm. }
  assert (failed_visits evs ⊆+ connections s1) as Hd.
  { rewrite Hconns. eapply sublist_submseteq, pass_trace_failed_sublist, Hpass. }
  exists s', evs.
  unfold broadcast, broadcast_send, bind, get_connections.
  rewrite Hrun1. simpl. rewrite Hrun. rewrite Hconns in *.
  split_and!; try congruence; auto.
Qed.

(** After a broadcast a connection is registered as many times as sends to
    it returned. *)
Lemma broadcast_survivors msg s s' evs c :
  pass_trace msg (net s) (connections s) evs (net s') →
  connections s ≡ₚ failed_visits evs ++ connections s' →
  occurrences c (connections s') = deliveries c evs.
Proof.
  intros Hpass Hperm.
  pose proof (pass_trace_occurrences _ _ _ _ _ c Hpass) as Hocc.
  rewrite (occurrences_Permutation _ _ _ Hperm), occurrences_app in Hocc. lia.
Qed.

(** ** The collectors *)

Lemma host_only_ret {A} (a : A) : host_only (ret a).
Proof. by intros s. Qed.

Lemma host_only_raise {A} e : host_only (raise (A:=A) e).
Proof. by intros s. Qed.

Lemma host_only_lift {A} (r : result A) : host_only (lift r).
Proof. by intros s. Qed.

Lemma host_only_reading {A} (f : Host → result A) : host_only (reading f).
Proof. intros s. split; [done|]. intros s' Hh. unfold reading. simpl. by rewrite Hh. Qed.

Lemma host_only_clock : host_only clock.
Proof. apply host_only_reading. Qed.

Lemma host_only_not_none {A} (x : option A) : host_only (not_none x).
Proof. destruct x; [apply host_only_ret|apply host_only_raise]. Qed.

Lemma host_only_bind {A B} (c : M A) (k : A → M B) :
  host_only c → (∀ a, host_only (k a)) → host_only (bind c k).
Proof.
  intros Hc Hk s. unfold bind.
  destruct (Hc s) as [Hst Hres]. split.
  - destruct (c s) as [s1 [a|e]]; simpl in *; subst; [|done]. apply Hk.
  - intros s' Hh. specialize (Hres s' Hh). destruct (Hc s') as [Hst' _].
    destruct (c s) as [s1 [a|e]], (c s') as [s1' [a'|e']];
      simpl in *; subst; try done.
    + injection Hres as ->. by apply Hk.
    + by injection Hres as ->.
Qed.

Create HintDb host_only.

#[local] Hint Resolve host_only_ret host_only_raise host_only_lift
  host_only_reading host_only_clock host_only_not_none : host_only.

Ltac host_only_steps :=
  repeat first
    [ apply host_only_bind; [|intros ?]
    | match goal with
      | |- host_only (match ?x with _ => _ end) => destruct x
      end
    | solve [auto with host_only] ].

Lemma system_info_try_host_only : host_only system_info_try.
Proof. unfold system_info_try. host_only_steps. Qed.

Lemma bot_info_try_host_only bot : host_only (bot_info_try bot).
Proof. unfold bot_info_try. host_only_steps. Qed.

Lemma get_system_info_run s :
  get_system_info s
  = (with_event EvSystemInfo s,
     Returns match (system_info_try s).2 with
             | Returns v => v
             | Raises _ => system_info_error (datetime_now (host s))
             end).
Proof.
  unfold get_system_info, bind, log_event, try_except.
  destruct (system_info_try_host_only (with_event EvSystemInfo s)) as [Hst _].
  destruct (system_info_try_host_only s) as [_ Hres].
  specialize (Hres (with_event EvSystemInfo s) eq_refl).
  destruct (system_info_try (with_event EvSystemInfo s)) as [s1 r].
  simpl in *. subst. by destruct (system_info_try s).2.
Qed.

Lemma get_bot_info_run s :
  get_bot_info s
  = (with_event EvBotInfo s,
     Returns match bot_instance s with
             | None => bot_not_connected
             | Some bot =>
                 match (bot_info_try bot s).2 with
                 | Returns v => v
                 | Raises _ => bot_info_error
                 end
             end).
Proof.
  unfold get_bot_info, bind, log_event, try_except. simpl.
  destruct (bot_instance s) as [bot|]; [|done].
  destruct (bot_info_try_host_only bot (with_event EvBotInfo s)) as [Hst _].
  destruct (bot_info_try_host_only bot s) as [_ Hres].
  specialize (Hres (with_event EvBotInfo s) eq_refl).
  destruct (bot_info_try bot (with_event EvBotInfo s)) as [s1 r].
  simpl in *. subst. by destruct (bot_info_try bot s).2.
Qed.

Lemma pass_trace_reads msg n conns evs n' :
  pass_trace msg n conns evs n' →
  state_reads evs = conns ∧ send_targets evs = connected_reads evs.
Proof.
  induction 1 as [n|n c conns evs n' Hst _ [IH1 IH2]
                  |n c n1 r conns evs n' Hst Hs _ [IH1 IH2]]; simpl.
  - done.
  - destruct (decide (client_state n c = CONNECTED)); [done|].
    by rewrite IH1, IH2.
  - by rewrite IH1, IH2.
Qed.

Lemma deliveries_elem_of c evs :
  0 < deliveries c evs → ∃ m, EvSendJson c m true ∈ evs.
Proof.
  induction evs as [|e evs IH]; simpl; [lia|].
  assert (0 < deliveries c evs → ∃ m, EvSendJson c m true ∈ e :: evs) as Hrest.
  { intros [m Hm]%IH. exists m. by right. }
  destruct e as [| |c' m [] | |]; try done.
  destruct (decide (c' = c)) as [->|]; [|done].
  intros _. exists m. left.
Qed.


(** On a registry without duplicates, dropping the entries of the failed
    visits leaves the entries read as [CONNECTED] whose send returned. *)
Lemma pass_trace_survivors msg n conns evs n' :
  pass_trace msg n conns evs n' →
  NoDup conns →
  filter (λ c, c ∉ failed_visits evs) conns = pass_survivors msg n conns.
Proof.
  induction 1 as [n|n c conns evs n' Hst Hpass IH
                  |n c n1 r conns evs n' Hst Hs Hpass IH];
    intros Hnd.
  - done.
  - apply NoDup_cons in Hnd as [Hc Hnd]. simpl.
    destruct (decide (client_state n c = CONNECTED)); [done|].
    rewrite filter_cons_False by (intros Hno; apply Hno; left).
    rewrite <- (IH Hnd). apply filter_ext_elem. intros y Hy.
    rewrite not_elem_of_cons. split; [tauto|]. intros Hfv. split; [|done].
    by intros ->.
  - apply NoDup_cons in Hnd as [Hc Hnd]. simpl.
    destruct (decide (client_state n c = CONNECTED)); [|done].
    rewrite Hs.
    assert (c ∉ failed_visits evs) as Hcfv.
    { intros Hin. apply Hc.
      eapply sublist_subseteq; [|exact Hin].
      by eapply pass_trace_failed_sublist. }
    destruct r as [[]|e0]; simpl.
    + rewrite filter_cons_True by done. by rewrite (IH Hnd).
    + rewrite filter_cons_False by (intros Hno; apply Hno; left).
      rewrite <- (IH Hnd). apply filter_ext_elem. intros y Hy.
      rewrite not_elem_of_cons. split; [tauto|]. intros Hfv. split; [|done].
      by intros ->.
Qed.

(** * The claims *)

(** C1. Registering the same connection twice in a row leaves the
    registry as registering it once does. [connect] calls [accept] before
    it appends, and an [accept] that follows a returned [accept] on the
    same connection raises: so once a [connect] has returned, a second
    [connect] of that connection raises before its append, and the
    registered connections and [Count] are those left by the first. *)
Theorem connect_twice_registers_once s c s1 :
  accept_returns_once →
  connect c s = (s1, Returns ()) →
  ∃ s2 e, connect c s1 = (s2, Raises e)
          ∧ connections s2 = connections s1
          ∧ (∀ x, x ∈ connections s2 ↔ x ∈ connections s1)
          ∧ Count s2 = Count s1
          ∧ connections s1 = connections s ++ [c].
Proof.
  intros Honce Hrun.
  pose proof (connect_returns _ _ _ Hrun) as Hconns1.
  assert (∃ n1, ws_accept (net s) c = (n1, Returns ()) ∧ net s1 = n1)
    as (n1 & Hacc & Hnet).
  { revert Hrun. unfold connect, bind, accept, get_connections, set_connections.
    destruct (ws_accept (net s) c) as [n1 [[]|e]]; simpl; [|done].
    intros [= <-]. by exists n1. }
  destruct (ws_accept (net s1) c) as [n2 r] eqn:Hacc2.
  assert (r ≠ Returns ()) as Hr.
  { eapply (Honce _ _ _ Hacc). rewrite <- Hnet. exact Hacc2. }
  destruct r as [[]|e]; [done|].
  exists (with_event (EvAccept c false) (with_net n2 s1)), e.
  split_and!; try done.
  unfold connect, bind at 1. unfold accept. by rewrite Hacc2.
Qed.

(** C2. Take a broadcast over a registry that holds A and B in which
    every send to A raised, B was read as [CONNECTED] and every send to B
    returned. The broadcast returns, every registered connection was
    visited, B was sent the message, A is out of the registry at the end
    and B is still in it: the exception from A's send neither ends the
    loop nor makes it pass over B. *)
Theorem broadcast_survives_failed_send s msg (A B : WebSocket) s' r :
  broadcast msg s = (s', r) →
  A ∈ connections s →
  B ∈ connections s →
  (∀ ok, EvSendJson A msg ok ∈ new_events s s' → ok = false) →
  (∀ st, EvClientState B st ∈ new_events s s' → st = CONNECTED) →
  (∀ ok, EvSendJson B msg ok ∈ new_events s s' → ok = true) →
  r = Returns ()
  ∧ (∀ c, c ∈ connections s → ∃ st, EvClientState c st ∈ new_events s s')
  ∧ EvSendJson B msg true ∈ new_events s s'
  ∧ (A ∉ connections s')
  ∧ B ∈ connections s'.
Proof.
  intros Hrun HA HB HAbad HBup HBok.
  destruct (broadcast_run msg s)
    as (s1 & evs & Hrun1 & Htr & Hpass & _ & _ & _ & Hperm & _).
  rewrite Hrun1 in Hrun. injection Hrun as -> <-.
  rewrite (new_events_app _ _ _ Htr) in *.
  assert (EvSendJson B msg true ∈ evs) as HBsent.
  { destruct (pass_trace_attempted _ _ _ _ _ _ Hpass HB HBup) as [ok Hin].
    by rewrite (HBok ok Hin) in Hin. }
  split_and!.
  - done.
  - intros c Hc. by eapply pass_trace_visited.
  - done.
  - apply occurrences_zero.
    rewrite (broadcast_survivors _ _ _ _ _ Hpass Hperm).
    apply deliveries_zero. intros m Hin.
    pose proof (pass_trace_events _ _ _ _ _ Hpass) as Hev.
    rewrite Forall_forall in Hev. pose proof (Hev _ Hin) as Hm.
    simpl in Hm. subst m. by apply HAbad in Hin.
  - apply deliveries_pos in HBsent.
    rewrite <- (broadcast_survivors _ _ _ _ _ Hpass Hperm) in HBsent.
    destruct (decide (B ∈ connections s')) as [|Hno]; [done|].
    apply occurrences_zero in Hno. lia.
Qed.

(** C3. The collectors return from every state. When the [try] body of
    [get_system_info] raises, the value returned has an [error] field and a
    [timestamp] field holding the clock reading in ISO format; when the
    [try] body of [get_bot_info] raises, the value returned is the error
    dict, whose [status] is "error". *)
Theorem collectors_never_raise s :
  (∃ v, get_system_info s = (with_event EvSystemInfo s, Returns v)
        ∧ ((∃ e, (system_info_try s).2 = Raises e) →
           dict_get "error" v
           = Some (JStr "Internal error while collecting system information")
           ∧ dict_get "timestamp" v
             = Some (JStr (isoformat (datetime_now (host s))))))
  ∧ (∃ v, get_bot_info s = (with_event EvBotInfo s, Returns v)
          ∧ (∀ b, bot_instance s = Some b →
                  (∃ e, (bot_info_try b s).2 = Raises e) →
                  v = bot_info_error
                  ∧ dict_get "status" v = Some (JStr "error"))).
Proof.
  split.
  - eexists. split; [apply get_system_info_run|].
    intros [e ->]. done.
  - eexists. split; [apply get_bot_info_run|].
    intros b -> [e ->]. done.
Qed.

(** C4. A turn of the scheduler that finds the registry empty returns
    with the state exactly as it was: no collector was called and nothing
    was sent (the record of calls has no new entry). *)
Theorem idle_turn_calls_nothing s :
  connections s = [] →
  broadcast_stats_turn s = (s, Returns ()) ∧ new_events s s = [].
Proof.
  intros Hempty. split.
  - unfold broadcast_stats_turn, try_except, bind, get_connections.
    by rewrite Hempty.
  - unfold new_events. apply drop_all.
Qed.


(** C7. With no bot bound ([bot_instance] is [None]), [get_bot_info]
    returns, and the value returned is the dict whose [status] is
    "not_connected". *)
Theorem unbound_bot_is_not_connected s :
  bot_instance s = None →
  ∃ v, get_bot_info s = (with_event EvBotInfo s, Returns v)
       ∧ v = bot_not_connected
       ∧ dict_get "status" v = Some (JStr "not_connected").
Proof.
  intros Hnone. exists bot_not_connected. split; [|done].
  by rewrite get_bot_info_run, Hnone.
Qed.

(** C8. [disconnect] returns from every state, and on a registry that
    does not hold the connection it changes nothing. On a registry
    without duplicates (every registry the server builds: [connect] is the
    only append and a connection is accepted once), disconnecting a
    connection twice in a row ends in the state that disconnecting it
    once ends in: after the first call the connection is absent and the
    second call changes nothing. *)
Theorem disconnect_twice_same_as_once s c :
  (∃ s', disconnect c s = (s', Returns ()))
  ∧ (c ∉ connections s → disconnect c s = (s, Returns ()))
  ∧ (NoDup (connections s) →
     (disconnect c ;; disconnect c) s = disconnect c s
     ∧ ∃ s', disconnect c s = (s', Returns ())
             ∧ (c ∉ connections s')
             ∧ disconnect c s' = (s', Returns ())).
Proof.
  split_and!.
  - destruct (disconnect_total s c) as (s' & Hrun & _). by exists s'.
  - apply disconnect_absent.
  - intros Hnd.
    pose proof (occurrences_NoDup c _ Hnd) as Hocc.
    assert (∃ s', disconnect c s = (s', Returns ()) ∧ c ∉ connections s')
      as (s' & Hrun & Hgone).
    { destruct (decide (c ∈ connections s)) as [Hc|Hc].
      - destruct (list_remove_elem_of _ _ Hc) as [l' Hrm].
        exists (with_connections l' s).
        split; [by apply disconnect_present|]. change (c ∉ l').
        apply list_remove_Permutation in Hrm.
        rewrite (occurrences_Permutation _ _ _ Hrm), occurrences_cons in Hocc.
        destruct (decide (c = c)); [|done].
        apply occurrences_zero. lia.
      - exists s. split; [by apply disconnect_absent|done]. }
    pose proof (disconnect_absent _ _ Hgone) as Hagain.
    split.
    + unfold bind at 1. by rewrite Hrun, Hagain.
    + by exists s'.
Qed.

(** C9. In a broadcast, a registered connection that is not [CONNECTED]
    whenever the pass reads its state is visited, gets no [send_json]
    call at all, is put on the [disconnected] list like a connection whose
    send raised, and is out of the registry when the broadcast returns. *)
Theorem broadcast_drops_unconnected s msg c s' r :
  broadcast msg s = (s', r) →
  c ∈ connections s →
  (∀ st, EvClientState c st ∈ new_events s s' → st ≠ CONNECTED) →
  r = Returns ()
  ∧ (∃ st, EvClientState c st ∈ new_events s s')
  ∧ (∀ m ok, EvSendJson c m ok ∉ new_events s s')
  ∧ c ∈ failed_visits (new_events s s')
  ∧ c ∉ connections s'.
Proof.
  intros Hrun Hc Hdown.
  destruct (broadcast_run msg s)
    as (s1 & evs & Hrun1 & Htr & Hpass & _ & _ & _ & Hperm & _).
  rewrite Hrun1 in Hrun. injection Hrun as -> <-.
  rewrite (new_events_app _ _ _ Htr) in *.
  assert (∀ m ok, EvSendJson c m ok ∉ evs) as Hnosend.
  { intros m ok Hin. eapply Hdown; [|done].
    by eapply pass_trace_send_connected. }
  assert (deliveries c evs = 0) as Hzero.
  { apply deliveries_zero. intros m. apply Hnosend. }
  split_and!.
  - done.
  - by eapply pass_trace_visited.
  - done.
  - pose proof (pass_trace_occurrences _ _ _ _ _ c Hpass) as Hocc.
    destruct (decide (c ∈ failed_visits evs)) as [|Hno]; [done|].
    apply occurrences_zero in Hno.
    assert (occurrences c (connections s) = 0) as Hnone by lia.
    by apply occurrences_zero in Hnone.
  - apply occurrences_zero.
    by rewrite (broadcast_survivors _ _ _ _ _ Hpass Hperm).
Qed.

(** C10. A broadcast returns and only takes entries out of the registry.
    The pass it makes is a pass over the whole registry on the transport:
    every entry has its state read, in order, each connection read as
    [CONNECTED] gets a [send_json], and the failed visits are those whose
    state was not [CONNECTED] or whose send raised. The registry
    afterwards is the registry before without the entries of the failed
    visits: nothing is added, and what remains is in its original order.
    When no connection is registered twice, it is the old registry
    filtered by "had no failed visit", that is, the entries read as
    [CONNECTED] whose send returned. *)
Theorem broadcast_only_removes_failed s msg :
  ∃ s', broadcast msg s = (s', Returns ())
        ∧ pass_trace msg (net s) (connections s) (new_events s s') (net s')
        ∧ state_reads (new_events s s') = connections s
        ∧ connections s' `sublist_of` connections s
        ∧ connections s ≡ₚ failed_visits (new_events s s') ++ connections s'
        ∧ (NoDup (connections s) →
           connections s'
           = filter (λ c, c ∉ failed_visits (new_events s s')) (connections s)
           ∧ connections s' = pass_survivors msg (net s) (connections s)).
Proof.
  destruct (broadcast_run msg s)
    as (s' & evs & Hrun & Htr & Hpass & _ & _ & Hsub & Hperm & Hfil).
  exists s'. rewrite (new_events_app _ _ _ Htr).
  split_and!; try done.
  - by destruct (pass_trace_reads _ _ _ _ _ Hpass).
  - intros Hnd. split; [by apply Hfil|].
    rewrite (Hfil Hnd). by eapply pass_trace_survivors.
Qed.

End Theory.

(** * Further properties of the server *)

Section ListFacts2.
Context {A : Type} `{EqDecision A}.
Implicit Types (x y : A) (l k : list A).

Lemma list_remove_app_fresh x l : x ∉ l → list_remove x (l ++ [x]) = Some l.
Proof.
  induction l as [|y l IH]; intros Hx; simpl.
  - by destruct (decide (x = x)).
  - apply not_elem_of_cons in Hx as [Hne Hx].
    destruct (decide (x = y)); [done|]. by rewrite (IH Hx).
Qed.

Lemma sublist_full l k : l `sublist_of` k → length k ≤ length l → l = k.
Proof.
  induction 1 as [|x l k _ IH|x l k Hsub _]; simpl; intros Hlen.
  - done.
  - f_equal. apply IH. lia.
  - apply sublist_length in Hsub. lia.
Qed.

End ListFacts2.

Section MoreTheory.
Context {float datetime timedelta : Type} `{!PyLib float datetime timedelta}.
Context {Net : Type} `{!Transport (float:=float) Net} `{!Inbox (Net:=Net)}.

Local Abbreviation State := (@State float datetime Net).
Local Abbreviation Json := (@Json float).
Local Abbreviation Event := (@Event float).
Local Abbreviation Bot := (@Bot float).
Local Abbreviation Host := (@Host float datetime).
Local Abbreviation M := (@M float datetime Net).
Implicit Types (s : State) (c ws : WebSocket) (msg : Json).
Implicit Types (l conns : list WebSocket) (evs : list Event).

(** ** More about the registry *)

(** X1. Registering a connection the registry does not hold and then
    disconnecting it gives back the registry as it was. *)
Theorem connect_then_disconnect_restores s c s1 :
  c ∉ connections s →
  connect c s = (s1, Returns ()) →
  ∃ s2, disconnect c s1 = (s2, Returns ()) ∧ connections s2 = connections s.
Proof.
  intros Hc Hrun%connect_returns.
  pose proof (list_remove_app_fresh c _ Hc) as Hrm. rewrite <- Hrun in Hrm.
  exists (with_connections (connections s) s1).
  by rewrite (disconnect_present _ _ _ Hrm).
Qed.

(** X2. Disconnecting a registered connection returns and takes exactly
    one entry out: the count drops by one, the connection is held once
    less, every other connection is held as often as before, and the
    entries left keep their order. *)
Theorem disconnect_removes_one_entry s c :
  c ∈ connections s →
  ∃ s', disconnect c s = (s', Returns ())
        ∧ S (Count s') = Count s
        ∧ S (occurrences c (connections s')) = occurrences c (connections s)
        ∧ (∀ x, x ≠ c →
             occurrences x (connections s') = occurrences x (connections s))
        ∧ connections s' `sublist_of` connections s.
Proof.
  intros Hc.
  destruct (disconnect_total s c)
    as (s' & Hrun & _ & _ & _ & _ & Hsub & Hperm & _).
  specialize (Hperm Hc). exists s'. unfold Count. split_and!; try done.
  - by rewrite Hperm.
  - rewrite (occurrences_Permutation _ _ _ Hperm), occurrences_cons.
    by destruct (decide (c = c)).
  - intros x Hx.
    rewrite (occurrences_Permutation _ _ _ Hperm), occurrences_cons.
    by destruct (decide (c = x)).
Qed.

(** ** More about [broadcast] *)

(** X3. A broadcast reads the state of every registry entry once, in
    registry order, and calls [send_json] on exactly the connections it
    read as [CONNECTED], in that order: no entry is passed over or
    visited twice, and nothing is sent to a connection read as not
    connected. *)
Theorem broadcast_visits_in_order s msg :
  ∃ s', broadcast msg s = (s', Returns ())
        ∧ state_reads (new_events s s') = connections s
        ∧ send_targets (new_events s s') = connected_reads (new_events s s').
Proof.
  destruct (broadcast_run msg s) as (s' & evs & Hrun & Htr & Hpass & _).
  exists s'. rewrite (new_events_app _ _ _ Htr).
  split; [done|]. by eapply pass_trace_reads.
Qed.

(** X4. After a broadcast every connection is registered exactly as many
    times as sends to it returned during the pass; so a connection is
    still registered if and only if a send of the message to it
    returned. *)
Theorem broadcast_keeps_the_delivered s msg :
  ∃ s', broadcast msg s = (s', Returns ())
        ∧ ∀ c, occurrences c (connections s') = deliveries c (new_events s s')
               ∧ (c ∈ connections s'
                  ↔ EvSendJson c msg true ∈ new_events s s').
Proof.
  destruct (broadcast_run msg s)
    as (s' & evs & Hrun & Htr & Hpass & _ & _ & _ & Hperm & _).
  exists s'. rewrite (new_events_app _ _ _ Htr). split; [done|]. intros c.
  pose proof (broadcast_survivors _ _ _ _ c Hpass Hperm) as Hocc.
  split; [done|]. split.
  - intros Hc.
    assert (0 < deliveries c evs) as Hpos.
    { rewrite <- Hocc. destruct (occurrences c (connections s')) eqn:Hz; [|lia].
      by apply occurrences_zero in Hz. }
    destruct (deliveries_elem_of _ _ Hpos) as [m Hm].
    pose proof (pass_trace_events _ _ _ _ _ Hpass) as Hev.
    rewrite Forall_forall in Hev. pose proof (Hev _ Hm) as Heq.
    simpl in Heq. by subst m.
  - intros Hin%deliveries_pos. rewrite <- Hocc in Hin.
    destruct (decide (c ∈ connections s')) as [|Hno]; [done|].
    apply occurrences_zero in Hno. lia.
Qed.

(** X5. A broadcast in which no visit failed (every connection was read
    as [CONNECTED] and every send returned) leaves the registry exactly
    as it was. *)
Theorem broadcast_without_failure_keeps_registry s msg s' r :
  broadcast msg s = (s', r) →
  failed_visits (new_events s s') = [] →
  r = Returns () ∧ connections s' = connections s.
Proof.
  intros Hrun Hnone.
  destruct (broadcast_run msg s)
    as (s1 & evs & Hrun1 & Htr & _ & _ & _ & Hsub & Hperm & _).
  rewrite Hrun1 in Hrun. injection Hrun as -> <-.
  rewrite (new_events_app _ _ _ Htr) in Hnone. rewrite Hnone in Hperm.
  split; [done|]. apply sublist_full; [done|]. simpl in Hperm.
  by rewrite Hperm.
Qed.

(** ** More about the collectors *)

Ltac run_body :=
  unfold bind, reading, lift, clock, not_none, ret, raise in *; simpl in *;
  repeat case_match; simpl in *; simplify_eq.

(** X6. [get_system_info] always returns a dict with a [timestamp]; the
    dict has an [error] key exactly when the [try] body raised. *)
Theorem system_info_error_key s :
  ∃ v, (get_system_info s).2 = Returns v
       ∧ is_Some (dict_get "timestamp" v)
       ∧ (is_Some (dict_get "error" v)
          ↔ ∃ e, (system_info_try s).2 = Raises e).
Proof.
  rewrite get_system_info_run. simpl.
  destruct (system_info_try s).2 as [v|e] eqn:Hbody.
  - exists v. split; [done|].
    assert (is_Some (dict_get "timestamp" v) ∧ dict_get "error" v = None)
      as [Hts Herr].
    { unfold system_info_try in Hbody. run_body; by split; [eexists|]. }
    split; [done|]. rewrite Herr. split; [by intros [? ?]|by intros [? ?]].
  - eexists. split; [done|]. split; [by eexists|].
    split; [by exists e|by eexists].
Qed.

(** X7. On a host for which [psutil.net_io_counters()] gives [None] (no
    network interface), [get_system_info] gives the error dict, whatever
    the other readings are: the attribute access on [None] raises inside
    the [try]. *)
Theorem system_info_without_network_counters s :
  psutil_net_io_counters (host s) = Returns None →
  (get_system_info s).2 = Returns (system_info_error (datetime_now (host s))).
Proof.
  intros Hnet. rewrite get_system_info_run. simpl.
  assert (∃ e, (system_info_try s).2 = Raises e) as [e ->]; [|done].
  unfold system_info_try. run_body; by eexists.
Qed.

(** X8. When [psutil.cpu_freq()] gives [None] and the collection
    succeeds, both frequency fields of the [cpu] group are the integer 0:
    a missing frequency is not an error. *)
Theorem system_info_without_cpu_freq s v :
  psutil_cpu_freq (host s) = Returns None →
  (system_info_try s).2 = Returns v →
  ∃ cpu, dict_get "cpu" v = Some cpu
         ∧ dict_get "frequency_mhz" cpu = Some (JInt 0)
         ∧ dict_get "frequency_max_mhz" cpu = Some (JInt 0).
Proof.
  intros Hfreq Hbody. unfold system_info_try in Hbody.
  run_body. by eexists.
Qed.

Lemma split_dot_head_prefix (t : string) :
("."%char ∉ chars (split_dot_head t))
  ∧ ∃ rest, t = split_dot_head t +:+ rest
            ∧ (rest = "" ∨ ∃ r, rest = String "." r).
Proof.
  induction t as [|a t [IH1 (rest & IH2 & IH3)]]; simpl.
  - split; [apply not_elem_of_nil|]. exists "". by split; [|left].
  - destruct (decide (a = "."%char)) as [->|Hne]; simpl.
    + split; [apply not_elem_of_nil|]. exists (String "." t).
      split; [done|]. right. by eexists.
    + split; [by apply not_elem_of_cons|]. exists rest.
      split; [|done].
      change (String a t = String a (split_dot_head t +:+ rest)). by f_equal.
Qed.

(** X9. When the collection succeeds, the [uptime_human] field of the
    [system] group is the text of the uptime up to its first dot: it
    contains no dot, and the text of the uptime is that field followed by
    nothing or by a dot and the rest (the microseconds). *)
Theorem system_info_uptime_human s v :
  (system_info_try s).2 = Returns v →
  ∃ stamp boot sys human rest,
    psutil_boot_time (host s) = Returns stamp
    ∧ datetime_fromtimestamp stamp = Returns boot
    ∧ dict_get "system" v = Some sys
    ∧ dict_get "uptime_human" sys = Some (JStr human)
    ∧ ("."%char ∉ chars human)
    ∧ timedelta_str (datetime_sub (datetime_now (host s)) boot)
      = human +:+ rest
    ∧ (rest = "" ∨ ∃ r, rest = String "." r).
Proof.
  intros Hbody. unfold system_info_try in Hbody. run_body.
  all: match goal with
       | |- context [split_dot_head ?t] =>
           destruct (split_dot_head_prefix t) as [Hno (rest & Heq & Hrest)]
       end.
  all: by eexists _, _, _, _, rest.
Qed.

Lemma bot_info_try_status (b : Bot) s v :
  (bot_info_try b s).2 = Returns v →
  ∃ st, dict_get "status" v = Some (JStr st)
        ∧ (st = "online" ∨ st = "starting").
Proof.
  intros Hbody. unfold bot_info_try in Hbody. run_body; eexists; eauto.
Qed.

(** X10. [get_bot_info] always returns a dict whose [status] is one of
    "not_connected", "online", "starting" and "error"; it is
    "not_connected" exactly when no bot is bound and "error" exactly when
    the [try] body raised. *)
Theorem bot_info_status s :
  ∃ v st,
    (get_bot_info s).2 = Returns v
    ∧ dict_get "status" v = Some (JStr st)
    ∧ st ∈ ["not_connected"; "online"; "starting"; "error"]
    ∧ (st = "not_connected" ↔ bot_instance s = None)
    ∧ (st = "error"
       ↔ ∃ b e, bot_instance s = Some b ∧ (bot_info_try b s).2 = Raises e).
Proof.
  rewrite get_bot_info_run. simpl.
  destruct (bot_instance s) as [b|] eqn:Hbot.
  - destruct (bot_info_try b s).2 as [v|e] eqn:Hbody.
    + destruct (bot_info_try_status _ _ _ Hbody) as (st & Hst & Hcase).
      exists v, st. split_and!; [done|done| | |].
      * apply list_elem_of_In. simpl. destruct Hcase as [->| ->]; auto.
      * split; [|done]. by destruct Hcase as [->| ->].
      * split; [by destruct Hcase as [->| ->]|].
        intros (b0 & e & [= <-] & He). congruence.
    + exists bot_info_error, "error". split_and!; [done|done| | |].
      * apply list_elem_of_In. simpl. auto.
      * by split.
      * split; [|done]. intros _. by exists b, e.
  - exists bot_not_connected, "not_connected". split_and!; [done|done| | |].
    + apply list_elem_of_In. simpl. auto.
    + by split.
    + split; [done|]. by intros (? & ? & ? & ?).
Qed.

Lemma sum_member_count_none (gs : list Guild) (acc : Z) :
  (∃ g, g ∈ gs ∧ member_count g = None) →
  ∃ e, sum_member_count gs acc = Raises e.
Proof.
  revert acc. induction gs as [|g gs IH]; intros acc (g0 & Hin & Hnone).
  - by apply elem_of_nil in Hin.
  - simpl. apply elem_of_cons in Hin as [->|Hin].
    + rewrite Hnone. by eexists.
    + destruct (member_count g); [|by eexists]. apply IH. by exists g0.
Qed.

(** X11. When one guild of the bound bot has no [member_count], the sum
    over the guilds raises inside the [try] and [get_bot_info] gives the
    error dict. *)
Theorem bot_info_with_uncounted_guild s b gs :
  bot_instance s = Some b →
  guilds b = Returns gs →
  (∃ g, g ∈ gs ∧ member_count g = None) →
  (get_bot_info s).2 = Returns bot_info_error.
Proof.
  intros Hbot Hgs Hnone. rewrite get_bot_info_run, Hbot. simpl.
  destruct (sum_member_count_none gs 0 Hnone) as [e0 Hsum].
  assert (∃ e, (bot_info_try b s).2 = Raises e) as [e ->]; [|done].
  unfold bot_info_try. run_body; first [congruence|by eexists].
Qed.

(** X12. For a bot without a [start_time] attribute, a successful
    collection reports an uptime of 0 seconds, shown as "0h 0m 0s". *)
Theorem bot_info_without_start_time s b v :
  start_time b = None →
  (bot_info_try b s).2 = Returns v →
  dict_get "uptime_seconds" v = Some (JInt 0)
  ∧ dict_get "uptime_human" v = Some (JStr "0h 0m 0s").
Proof.
  intros Hstart Hbody. unfold bot_info_try in Hbody. rewrite Hstart in Hbody.
  unfold number_int, number_floordiv, number_mod in Hbody. run_body; done.
Qed.

(** X13. The [shard_count] field of a successful collection is never 0:
    it is the bot's shard count when that is a non-zero number and 1 when
    it is [None] or 0. *)
Theorem bot_info_shard_count s b v :
  (bot_info_try b s).2 = Returns v →
  ∃ n, dict_get "shard_count" v = Some (JInt n)
       ∧ n ≠ 0%Z
       ∧ (∀ k, shard_count b = Returns (Some k) → k ≠ 0%Z → n = k)
       ∧ (shard_count b = Returns None ∨ shard_count b = Returns (Some 0%Z) →
          n = 1%Z).
Proof.
  intros Hbody. unfold bot_info_try in Hbody. run_body.
  all: eexists; split; [reflexivity|]; split_and!; try done.
  all: try by intros k [= <-].
  all: try by intros [?|?]; simplify_eq.
Qed.

(** The collectors only look at the host and at the bound bot. *)
Lemma get_system_info_at s s1 :
  host s1 = host s →
  get_system_info s1 = (with_event EvSystemInfo s1, (get_system_info s).2).
Proof.
  intros Hh. rewrite !get_system_info_run. simpl.
  destruct (system_info_try_host_only s) as [_ Hres].
  by rewrite (Hres s1 Hh), Hh.
Qed.

Lemma get_bot_info_at s s1 :
  host s1 = host s →
  bot_instance s1 = bot_instance s →
  get_bot_info s1 = (with_event EvBotInfo s1, (get_bot_info s).2).
Proof.
  intros Hh Hb. rewrite !get_bot_info_run. simpl. rewrite Hb.
  destruct (bot_instance s) as [b|]; [|done].
  destruct (bot_info_try_host_only b s) as [_ Hres].
  by rewrite (Hres s1 Hh).
Qed.

Lemma get_system_info_value s : ∃ v, (get_system_info s).2 = Returns v.
Proof. rewrite get_system_info_run. by eexists. Qed.

Lemma get_bot_info_value s : ∃ v, (get_bot_info s).2 = Returns v.
Proof. rewrite get_bot_info_run. by eexists. Qed.

(** ** The HTTP handlers *)

(** X14. [get_combined_stats] returns from every state. Its dict holds,
    under [system] and [bot], what the handlers [get_system_stats] and
    [get_bot_stats] return in the same state; the state it leaves differs
    only by the record of the two collector calls, so the registry is not
    touched and nothing is sent. *)
Theorem combined_stats_agree s :
  ∃ system bot,
    get_combined_stats s
    = (with_event EvBotInfo (with_event EvSystemInfo s),
       Returns (JDict [("system", system); ("bot", bot)]))
    ∧ (get_system_stats s).2 = Returns system
    ∧ (get_bot_stats s).2 = Returns bot.
Proof.
  destruct (get_system_info_value s) as [system Hsys].
  destruct (get_bot_info_value s) as [bot Hbot].
  exists system, bot. split; [|done].
  unfold get_combined_stats, bind.
  rewrite (get_system_info_at s s) by done. rewrite Hsys.
  rewrite (get_bot_info_at s (with_event EvSystemInfo s)) by done.
  by rewrite Hbot.
Qed.

(** ** The scheduler loop *)

Lemma broadcast_stats_turn_nonempty s :
  connections s ≠ [] →
  ∃ system bot s',
    (get_system_info s).2 = Returns system
    ∧ (get_bot_info s).2 = Returns bot
    ∧ broadcast (update_message system bot)
        (with_event EvBotInfo (with_event EvSystemInfo s))
      = (s', Returns ())
    ∧ broadcast_stats_turn s = (s', Returns ()).
Proof.
  intros Hne.
  destruct (get_system_info_value s) as [system Hsys].
  destruct (get_bot_info_value s) as [bot Hbot].
  destruct (broadcast_run (update_message system bot)
              (with_event EvBotInfo (with_event EvSystemInfo s)))
    as (s' & evs & Hrun & _).
  exists system, bot, s'. split_and!; try done.
  unfold broadcast_stats_turn, try_except, bind at 1. unfold get_connections.
  destruct (connections s) as [|c conns] eqn:Hconns; [done|].
  unfold bind.
  rewrite (get_system_info_at s s) by done. rewrite Hsys.
  rewrite (get_bot_info_at s (with_event EvSystemInfo s)) by done.
  by rewrite Hbot, Hrun.
Qed.

Lemma broadcast_stats_turn_total s :
  ∃ s', broadcast_stats_turn s = (s', Returns ())
        ∧ connections s' `sublist_of` connections s
        ∧ bot_instance s' = bot_instance s
        ∧ host s' = host s.
Proof.
  destruct (decide (connections s = [])) as [Hempty|Hne].
  - exists s. split; [|done].
    unfold broadcast_stats_turn, try_except, bind, get_connections.
    by rewrite Hempty.
  - destruct (broadcast_stats_turn_nonempty s Hne)
      as (system & bot & s' & _ & _ & Hrun & Hturn).
    destruct (broadcast_run (update_message system bot)
                (with_event EvBotInfo (with_event EvSystemInfo s)))
      as (s1 & evs & Hrun1 & _ & _ & Hh & Hb & Hsub & _).
    rewrite Hrun in Hrun1. injection Hrun1 as <-.
    by exists s'.
Qed.


Lemma broadcast_stats_run (turns : nat) s :
  ∃ s', broadcast_stats turns s = (s', Returns ())
        ∧ connections s' `sublist_of` connections s
        ∧ bot_instance s' = bot_instance s
        ∧ host s' = host s.
Proof.
  revert s. induction turns as [|turns IH]; intros s.
  - by exists s.
  - destruct (broadcast_stats_turn_total s) as (s1 & Hturn & Hsub & Hb & Hh).
    destruct (IH s1) as (s' & Hrun & Hsub' & Hb' & Hh').
    exists s'. simpl. unfold bind. rewrite Hturn, Hrun.
    split_and!; [done|by etrans|congruence..].
Qed.

(** X16. However many turns the scheduler loop is followed for, it has
    not raised; the registry it leaves is the one it started from with
    entries taken out (nothing added, order kept), and the bound bot and
    the host are what they were. *)
Theorem scheduler_loop_only_shrinks_registry (turns : nat) s :
  ∃ s', broadcast_stats turns s = (s', Returns ())
        ∧ connections s' `sublist_of` connections s
        ∧ bot_instance s' = bot_instance s
        ∧ host s' = host s.
Proof.
  revert s. induction turns as [|turns IH]; intros s.
  - by exists s.
  - destruct (broadcast_stats_turn_total s) as (s1 & Hturn & Hsub & Hb & Hh).
    destruct (IH s1) as (s' & Hrun & Hsub' & Hb' & Hh').
    exists s'. simpl. unfold bind. rewrite Hturn, Hrun.
    split_and!; [done|by etrans|congruence..].
Qed.

(** X17. On an empty registry the scheduler loop idles: after any number
    of turns the state, and with it the record of calls, is unchanged. *)
Theorem scheduler_loop_idles_on_empty_registry (turns : nat) s :
  connections s = [] →
  broadcast_stats turns s = (s, Returns ()).
Proof.
  intros Hempty. induction turns as [|turns IH]; [done|].
  simpl. unfold bind.
  assert (broadcast_stats_turn s = (s, Returns ())) as ->; [|done].
  unfold broadcast_stats_turn, try_except, bind, get_connections.
  by rewrite Hempty.
Qed.

(** ** The session endpoint *)

Lemma receive_loop_frame (turns : nat) ws :
  ∀ s s' r,
    receive_loop turns ws s = (s', r) →
    r ≠ Returns true
    ∧ manager s' = manager s ∧ trace s' = trace s
    ∧ host s' = host s ∧ bot_instance s' = bot_instance s.
Proof.
  induction turns as [|turns IH]; intros s s' r; simpl.
  - by intros [= <- <-].
  - unfold bind, receive_turn.
    destruct (ws_receive_text (net s) ws) as [n' [x|e]].
    + intros Hrun. by destruct (IH _ _ _ Hrun) as (? & ? & ? & ? & ?).
    + by intros [= <- <-].
Qed.

(** Once a wait has raised, following the loop for longer changes
    nothing. *)
Lemma receive_loop_more (k j : nat) ws :
  ∀ s s' e,
    receive_loop k ws s = (s', Raises e) →
    receive_loop (k + j) ws s = (s', Raises e).
Proof.
  induction k as [|k IH]; intros s s' e; simpl; [done|].
  unfold bind, receive_turn.
  destruct (ws_receive_text (net s) ws) as [n' [x|e']]; [apply IH|done].
Qed.

(** The two [except] clauses of the endpoint. *)
Lemma session_close_run ws s :
  ∃ s', (disconnect ws ;; ret true) s = (s', Returns true)
        ∧ net s' = net s ∧ trace s' = trace s
        ∧ host s' = host s ∧ bot_instance s' = bot_instance s
        ∧ connections s' `sublist_of` connections s
        ∧ (ws ∈ connections s → connections s ≡ₚ ws :: connections s')
        ∧ (∀ l, connections s = l ++ [ws] → ws ∉ l → connections s' = l).
Proof.
  destruct (disconnect_total s ws)
    as (s' & Hrun & Hn & Ht & Hh & Hb & Hsub & Hperm & _).
  exists s'. unfold bind. rewrite Hrun. split_and!; try done.
  intros l Hl Hfresh.
  pose proof (list_remove_app_fresh ws l Hfresh) as Hrm. rewrite <- Hl in Hrm.
  rewrite (disconnect_present _ _ _ Hrm) in Hrun. by injection Hrun as <-.
Qed.

Lemma websocket_endpoint_refused (turns : nat) ws s n1 e :
  ws_accept (net s) ws = (n1, Raises e) →
  websocket_endpoint turns ws s
  = (with_event (EvAccept ws false) (with_net n1 s), Raises e).
Proof.
  intros Hacc. unfold websocket_endpoint, bind at 1.
  unfold connect, bind at 1. unfold accept. by rewrite Hacc.
Qed.

Lemma websocket_endpoint_accepted (turns : nat) ws s n1 system bot :
  ws_accept (net s) ws = (n1, Returns ()) →
  (get_system_info s).2 = Returns system →
  (get_bot_info s).2 = Returns bot →
  websocket_endpoint turns ws s
  = try_except
      (send_json ws (initial_message system bot) ;; receive_loop turns ws)
      (λ e, disconnect ws ;; ret true)
      (session_ready ws n1 s).
Proof.
  intros Hacc Hsys Hbot.
  unfold websocket_endpoint, bind at 1.
  unfold connect, bind, accept, get_connections, set_connections.
  rewrite Hacc. simpl.
  set (s1 := with_connections _ _).
  unfold try_except.
  rewrite (get_system_info_at s s1) by done. rewrite Hsys.
  rewrite (get_bot_info_at s (with_event EvSystemInfo s1)) by done.
  by rewrite Hbot.
Qed.

(** What the endpoint does once [accept] has returned. *)
Lemma websocket_endpoint_outcome (turns : nat) ws s n1 system bot n2 r :
  ws_accept (net s) ws = (n1, Returns ()) →
  (get_system_info s).2 = Returns system →
  (get_bot_info s).2 = Returns bot →
  ws_send_json n1 ws (initial_message system bot) = (n2, r) →
  ∃ s' (finished : bool),
    websocket_endpoint turns ws s = (s', Returns finished)
    ∧ trace s'
      = trace s ++ [EvAccept ws true; EvSystemInfo; EvBotInfo;
                    EvSendJson ws (initial_message system bot) (is_returns r)]
    ∧ host s' = host s ∧ bot_instance s' = bot_instance s
    ∧ (is_returns r = false → finished = true ∧ net s' = n2)
    ∧ (finished = true →
       connections s ≡ₚ connections s'
       ∧ (ws ∉ connections s → connections s' = connections s))
    ∧ (finished = false → connections s' = connections s ++ [ws]).
Proof.
  intros Hacc Hsys Hbot Hsend.
  rewrite (websocket_endpoint_accepted _ _ _ _ _ _ Hacc Hsys Hbot).
  unfold try_except, bind at 1. unfold send_json.
  change (net (session_ready ws n1 s)) with n1. rewrite Hsend.
  set (s4 := with_event _ (with_net n2 _)).
  assert (connections s4 = connections s ++ [ws]) as Hconns4 by done.
  assert (trace s4
          = trace s ++ [EvAccept ws true; EvSystemInfo; EvBotInfo;
                        EvSendJson ws (initial_message system bot)
                          (is_returns r)]) as Htr4.
  { simpl. by rewrite <- !app_assoc. }
  assert (∀ s5, manager s5 = manager s4 → trace s5 = trace s4 →
                host s5 = host s4 → bot_instance s5 = bot_instance s4 →
                ∃ s', (disconnect ws ;; ret true) s5 = (s', Returns true)
                      ∧ net s' = net s5
                      ∧ trace s' = trace s4
                      ∧ host s' = host s ∧ bot_instance s' = bot_instance s
                      ∧ connections s ≡ₚ connections s'
                      ∧ (ws ∉ connections s → connections s' = connections s))
    as Hclose.
  { intros s5 Hm Ht Hh Hb.
    assert (connections s5 = connections s ++ [ws]) as Hconns5.
    { unfold connections. by rewrite Hm. }
    destruct (session_close_run ws s5)
      as (s' & Hrun & Hn & Ht' & Hh' & Hb' & _ & Hperm & Hfresh).
    exists s'. split_and!; try congruence.
    - rewrite Hh', Hh. done.
    - rewrite Hb', Hb. done.
    - rewrite Hconns5 in Hperm.
      apply (inj (cons ws)). rewrite <- Hperm.
      + apply Permutation_cons_append.
      + rewrite elem_of_app, list_elem_of_singleton. by right.
    - intros Hnew. by apply Hfresh. }
  destruct r as [[]|e]; simpl.
  - destruct (receive_loop turns ws s4) as [s5 r5] eqn:Hloop.
    destruct (receive_loop_frame _ _ _ _ _ Hloop) as (Hr5 & Hm & Ht & Hh & Hb).
    destruct r5 as [[|]|e5]; [done| |].
    + exists s5, false. split_and!.
      * done.
      * by rewrite Ht.
      * by rewrite Hh.
      * by rewrite Hb.
      * done.
      * done.
      * intros _. unfold connections. by rewrite Hm.
    + destruct (Hclose s5 Hm Ht Hh Hb)
        as (s' & Hrun & _ & Ht' & Hh' & Hb' & Hperm & Hfresh).
      exists s', true. rewrite Hrun. split_and!.
      * done.
      * by rewrite Ht'.
      * done.
      * done.
      * done.
      * done.
      * done.
  - destruct (Hclose s4 eq_refl eq_refl eq_refl eq_refl)
      as (s' & Hrun & Hn & Ht' & Hh' & Hb' & Hperm & Hfresh).
    exists s', true. rewrite Hrun. split_and!.
    + done.
    + by rewrite Ht'.
    + done.
    + done.
    + done.
    + done.
    + done.
Qed.

(** X18. When [accept] raises, the endpoint raises the same exception
    without having registered the connection, called a collector or sent
    anything: the only call recorded is the failed [accept]. *)
Theorem endpoint_refused_connection (turns : nat) ws s e :
  (ws_accept (net s) ws).2 = Raises e →
  ∃ s', websocket_endpoint turns ws s = (s', Raises e)
        ∧ connections s' = connections s
        ∧ new_events s s' = [EvAccept ws false].
Proof.
  destruct (ws_accept (net s) ws) as [n1 r] eqn:Hacc. simpl. intros ->.
  rewrite (websocket_endpoint_refused _ _ _ _ _ Hacc).
  eexists. split; [done|]. split; [done|]. by apply new_events_app.
Qed.

(** X19. Once [accept] has returned, the endpoint does not raise, and
    however long it is followed the accepts, collector calls and sends it
    has made are, in this order: the [accept], one [get_system_info], one
    [get_bot_info], and one [send_json] to its own connection, of the
    message tagged "initial" that carries the two values collected. It
    sends nothing else. *)
Theorem endpoint_sends_the_initial_message_only (turns : nat) ws s :
  (ws_accept (net s) ws).2 = Returns () →
  ∃ s' (finished : bool) system bot ok,
    websocket_endpoint turns ws s = (s', Returns finished)
    ∧ (get_system_info s).2 = Returns system
    ∧ (get_bot_info s).2 = Returns bot
    ∧ new_events s s'
      = [EvAccept ws true; EvSystemInfo; EvBotInfo;
         EvSendJson ws (initial_message system bot) ok]
    ∧ dict_get "type" (initial_message system bot) = Some (JStr "initial").
Proof.
  destruct (ws_accept (net s) ws) as [n1 r0] eqn:Hacc. simpl. intros ->.
  destruct (get_system_info_value s) as [system Hsys].
  destruct (get_bot_info_value s) as [bot Hbot].
  destruct (ws_send_json n1 ws (initial_message system bot)) as [n2 r] eqn:Hsend.
  destruct (websocket_endpoint_outcome turns _ _ _ _ _ _ _ Hacc Hsys Hbot Hsend)
    as (s' & finished & Hrun & Htr & _).
  exists s', finished, system, bot, (is_returns r).
  split_and!; try done. by apply new_events_app.
Qed.

(** X20. A connection is registered for as long as its session runs.
    With [accept] returning: while the endpoint is still in its loop the
    registry is the one it started from with the connection appended;
    when the endpoint has returned the registry holds the entries it
    started from, and is equal to it when the connection was not
    registered before. *)
Theorem endpoint_registers_while_running (turns : nat) ws s :
  (ws_accept (net s) ws).2 = Returns () →
  ∃ s' (finished : bool),
    websocket_endpoint turns ws s = (s', Returns finished)
    ∧ (finished = false → connections s' = connections s ++ [ws])
    ∧ (finished = true →
       connections s ≡ₚ connections s'
       ∧ (ws ∉ connections s → connections s' = connections s)).
Proof.
  destruct (ws_accept (net s) ws) as [n1 r0] eqn:Hacc. simpl. intros ->.
  destruct (get_system_info_value s) as [system Hsys].
  destruct (get_bot_info_value s) as [bot Hbot].
  destruct (ws_send_json n1 ws (initial_message system bot)) as [n2 r] eqn:Hsend.
  destruct (websocket_endpoint_outcome turns _ _ _ _ _ _ _ Hacc Hsys Hbot Hsend)
    as (s' & finished & Hrun & _ & _ & _ & _ & Hdone & Hopen).
  by exists s', finished.
Qed.

(** X21. When the send of the initial message raises, the endpoint
    returns at once, however long it is followed: it never waits for a
    client message (the transport is left as the failed send left it) and
    the connection is taken out of the registry again. *)
Theorem endpoint_failed_initial_send (turns : nat) ws s n1 system bot n2 e :
  ws_accept (net s) ws = (n1, Returns ()) →
  (get_system_info s).2 = Returns system →
  (get_bot_info s).2 = Returns bot →
  ws_send_json n1 ws (initial_message system bot) = (n2, Raises e) →
  ∃ s', websocket_endpoint turns ws s = (s', Returns true)
        ∧ net s' = n2
        ∧ connections s ≡ₚ connections s'
        ∧ (ws ∉ connections s → connections s' = connections s).
Proof.
  intros Hacc Hsys Hbot Hsend.
  destruct (websocket_endpoint_outcome turns _ _ _ _ _ _ _ Hacc Hsys Hbot Hsend)
    as (s' & finished & Hrun & _ & _ & _ & Hfail & Hdone & _).
  destruct (Hfail eq_refl) as [-> Hnet].
  destruct (Hdone eq_refl) as [Hperm Hfresh].
  by exists s'.
Qed.

(** X22. When the opening of a session succeeded (the endpoint followed
    for no turn is in its loop) and the [k]-th wait for a client message
    raises, then following the endpoint for [k] turns or more sees it
    return: the transport is as that wait left it, nothing more was sent,
    and a connection that was not registered before is not registered
    any more. *)
Theorem endpoint_ends_when_client_hangs_up (k turns : nat) ws s s0 s1 e :
  websocket_endpoint 0 ws s = (s0, Returns false) →
  receive_loop k ws s0 = (s1, Raises e) →
  k ≤ turns →
  ∃ s', websocket_endpoint turns ws s = (s', Returns true)
        ∧ net s' = net s1
        ∧ trace s' = trace s0
        ∧ (ws ∉ connections s → connections s' = connections s).
Proof.
  intros Hopen Hloop Hk.
  destruct (ws_accept (net s) ws) as [n1 [[]|e0]] eqn:Hacc.
  2:{ by rewrite (websocket_endpoint_refused _ _ _ _ _ Hacc) in Hopen. }
  destruct (get_system_info_value s) as [system Hsys].
  destruct (get_bot_info_value s) as [bot Hbot].
  rewrite (websocket_endpoint_accepted 0 _ _ _ _ _ Hacc Hsys Hbot) in Hopen.
  rewrite (websocket_endpoint_accepted turns _ _ _ _ _ Hacc Hsys Hbot).
  unfold try_except, bind at 1 in Hopen. unfold try_except, bind at 1.
  destruct (send_json ws (initial_message system bot) (session_ready ws n1 s))
    as [s4 [[]|e1]] eqn:Hsend.
  2:{ destruct (session_close_run ws s4) as (s' & Hrun & _).
      rewrite Hrun in Hopen. done. }
  simpl in Hopen. injection Hopen as <-.
  assert (connections s4 = connections s ++ [ws]) as Hconns4.
  { unfold send_json in Hsend.
    destruct (ws_send_json _ _ _) as [n2 r]. by injection Hsend as <- _. }
  replace turns with (k + (turns - k)) by lia.
  rewrite (receive_loop_more _ _ _ _ _ _ Hloop).
  destruct (receive_loop_frame _ _ _ _ _ Hloop) as (_ & Hm & Ht & _ & _).
  destruct (session_close_run ws s1)
    as (s' & Hrun & Hn & Ht' & _ & _ & _ & _ & Hfresh).
  exists s'. rewrite Hrun. split_and!; try done; try congruence.
  intros Hnew. apply Hfresh; [|done]. unfold connections in *. by rewrite Hm.
Qed.

(** ** Start-up *)

(** X23. Both start-up functions bind the bot before anything else: with
    a bot passed in, whether or not [uvicorn] is there and however the
    task creation and the server end, the state they leave has that bot
    bound and the registry and the record of calls untouched, and
    [get_bot_info] in that state does not answer "not_connected". *)
Theorem start_binds_the_bot (uvicorn : bool) (create_task : result unit)
    (serve : Config → result unit) (b : Bot) (host : string) (port : Z) s s' :
  s' = (start_webgui uvicorn create_task (Some b) host port s).1
  ∨ s' = (start_webgui_async uvicorn create_task serve (Some b) host port s).1 →
  bot_instance s' = Some b
  ∧ connections s' = connections s
  ∧ trace s' = trace s
  ∧ ∃ v st, (get_bot_info s').2 = Returns v
            ∧ dict_get "status" v = Some (JStr st)
            ∧ st ≠ "not_connected".
Proof.
  intros Hs'.
  assert (bot_instance s' = Some b ∧ connections s' = connections s
          ∧ trace s' = trace s) as (Hb & Hc & Ht).
  { destruct Hs' as [-> | ->];
      unfold start_webgui, start_webgui_async, bind, set_bot_instance, lift, ret;
      destruct uvicorn, create_task as [[]|?]; done. }
  split_and!; try done.
  rewrite get_bot_info_run, Hb. simpl.
  destruct (bot_info_try b s').2 as [v|e] eqn:Hbody.
  - destruct (bot_info_try_status _ _ _ Hbody) as (st & Hst & [-> | ->]);
      by eexists v, _.
  - by exists bot_info_error, "error".
Qed.

(** ** An invariant of the registry *)

(** X24. A registry without duplicates stays without duplicates under
    everything the server does to it: registering a connection it does
    not hold, disconnecting any connection, a broadcast, any number of
    turns of the scheduler loop, and a session (followed for any number
    of turns) of a connection it does not hold. *)
Theorem registry_stays_duplicate_free s :
  NoDup (connections s) →
  (∀ c s', c ∉ connections s → connect c s = (s', Returns ()) →
           NoDup (connections s'))
  ∧ (∀ c, NoDup (connections (disconnect c s).1))
  ∧ (∀ msg, NoDup (connections (broadcast msg s).1))
  ∧ (∀ turns, NoDup (connections (broadcast_stats turns s).1))
  ∧ (∀ turns ws, ws ∉ connections s →
                 NoDup (connections (websocket_endpoint turns ws s).1)).
Proof.
  intros Hnd.
  assert (∀ c, c ∉ connections s → NoDup (connections s ++ [c])) as Hadd.
  { intros c Hc. apply NoDup_app. split_and!; [done| |apply NoDup_singleton].
    intros x Hx ->%list_elem_of_singleton. done. }
  split_and!.
  - intros c s' Hc ->%connect_returns. by apply Hadd.
  - intros c. destruct (disconnect_total s c) as (s' & -> & _ & _ & _ & _ & Hsub & _).
    by eapply sublist_NoDup.
  - intros msg. destruct (broadcast_run msg s)
      as (s' & evs & -> & _ & _ & _ & _ & Hsub & _).
    by eapply sublist_NoDup.
  - intros turns. destruct (broadcast_stats_run turns s) as (s' & -> & Hsub & _).
    by eapply sublist_NoDup.
  - intros turns ws Hws.
    destruct (ws_accept (net s) ws) as [n1 [[]|e]] eqn:Hacc.
    + destruct (get_system_info_value s) as [system Hsys].
      destruct (get_bot_info_value s) as [bot Hbot].
      destruct (ws_send_json n1 ws (initial_message system bot))
        as [n2 r] eqn:Hsend.
      destruct (websocket_endpoint_outcome turns _ _ _ _ _ _ _
                  Hacc Hsys Hbot Hsend)
        as (s' & finished & -> & _ & _ & _ & _ & Hdone & Hopen).
      destruct finished; simpl.
      * destruct (Hdone eq_refl) as [_ ->]; done.
      * rewrite (Hopen eq_refl). by apply Hadd.
    + by rewrite (websocket_endpoint_refused _ _ _ _ _ Hacc).
Qed.

End MoreTheory.

(** * The claims on concrete runs *)

Import Fixture.

Ltac by_decide :=
  lazymatch goal with
  | |- ?P => apply (bool_decide_unpack P); vm_compute; exact I
  end.

Ltac invert_elem_of H :=
  repeat (apply elem_of_cons in H as [H|H]; [by simplify_eq|]);
  by apply elem_of_nil in H.

Lemma lobby_accept_returns_once : accept_returns_once (Net:=Lobby).
Proof.
  intros n ws n1 Hacc n2 r Hacc2. simpl in Hacc, Hacc2.
  destruct (decide (ws ∈ n)) as [Hin|Hin].
  - rewrite bool_decide_eq_true_2 in Hacc by done. done.
  - rewrite bool_decide_eq_false_2 in Hacc by done. injection Hacc as <-.
    rewrite bool_decide_eq_true_2 in Hacc2 by left.
    by injection Hacc2 as <- <-.
Qed.

(** Registry [[3]]; connection 7 is registered, then registered again. *)
Lemma connect_twice_registers_once_witness :
  let s := lobby_state [3] [3] in
  let s1 := (connect 7 s).1 in
  accept_returns_once (Net:=Lobby)
  ∧ connect 7 s = (s1, Returns ())
  ∧ ∃ s2 e, connect 7 s1 = (s2, Raises e)
            ∧ connections s2 = [3; 7]
            ∧ Count s2 = Count s1.
Proof.
  intros s s1.
  assert (connect 7 s = (s1, Returns ())) as Hrun by reflexivity.
  destruct (connect_twice_registers_once s 7 s1 lobby_accept_returns_once Hrun)
    as (s2 & e & Hrun2 & Hsame & _ & Hcount & _).
  split; [exact lobby_accept_returns_once|]. split; [exact Hrun|].
  exists s2, e. split_and!; [exact Hrun2|exact Hsame|exact Hcount].
Defined.

(** Registry [[3; 5]]: 3 is held, 9 is not. *)
Lemma disconnect_twice_same_as_once_witness :
  let s := state [3; 5] None healthy all_up in
  NoDup (connections s)
  ∧ (disconnect 3 ;; disconnect 3) s = disconnect 3 s
  ∧ connections (disconnect 3 s).1 = [5]
  ∧ (9 ∉ connections s)
  ∧ disconnect 9 s = (s, Returns ()).
Proof.
  intros s.
  assert (NoDup (connections s)) as Hnd by by_decide.
  assert (9 ∉ connections s) as Habs by by_decide.
  destruct (disconnect_twice_same_as_once s 3) as (_ & _ & Htwice).
  destruct (Htwice Hnd) as [Hsame _].
  destruct (disconnect_twice_same_as_once s 9) as (_ & Hnoop & _).
  split_and!; [exact Hnd|exact Hsame|reflexivity|exact Habs|exact (Hnoop Habs)].
Defined.

(** Registry [[1; 2]], sends to 1 raise. *)
Lemma broadcast_survives_failed_send_witness :
  let s := state [1; 2] None healthy {| closed := []; broken := [1] |} in
  let msg := JStr "tick" in
  let s' := (broadcast msg s).1 in
  1 ∈ connections s
  ∧ 2 ∈ connections s
  ∧ EvSendJson 1 msg false ∈ new_events s s'
  ∧ EvSendJson 2 msg true ∈ new_events s s'
  ∧ (1 ∉ connections s')
  ∧ 2 ∈ connections s'.
Proof.
  intros s msg s'.
  assert (1 ∈ connections s) as H1 by by_decide.
  assert (2 ∈ connections s) as H2 by by_decide.
  assert (new_events s s'
          = [EvClientState 1 CONNECTED; EvSendJson 1 msg false;
             EvClientState 2 CONNECTED; EvSendJson 2 msg true]) as Hev
    by reflexivity.
  assert (broadcast msg s = (s', Returns ())) as Hrun by reflexivity.
  assert (∀ ok, EvSendJson 1 msg ok ∈ new_events s s' → ok = false) as HAbad.
  { rewrite Hev. intros ok H. invert_elem_of H. }
  assert (∀ st, EvClientState 2 st ∈ new_events s s' → st = CONNECTED) as HBup.
  { rewrite Hev. intros st H. invert_elem_of H. }
  assert (∀ ok, EvSendJson 2 msg ok ∈ new_events s s' → ok = true) as HBok.
  { rewrite Hev. intros ok H. invert_elem_of H. }
  destruct (broadcast_survives_failed_send s msg 1 2 s' _ Hrun H1 H2
              HAbad HBup HBok) as (_ & _ & Hsent & Hout & Hin).
  split_and!; [exact H1|exact H2| |exact Hsent|exact Hout|exact Hin].
  rewrite Hev. right. left.
Defined.

(** Registry [[1; 2; 3]], connection 2 is disconnected. *)
Lemma broadcast_drops_unconnected_witness :
  let s := state [1; 2; 3] None healthy {| closed := [2]; broken := [] |} in
  let msg := JStr "tick" in
  let s' := (broadcast msg s).1 in
  2 ∈ connections s
  ∧ (∀ m ok, EvSendJson 2 m ok ∉ new_events s s')
  ∧ 2 ∈ failed_visits (new_events s s')
  ∧ connections s' = [1; 3].
Proof.
  intros s msg s'.
  assert (2 ∈ connections s) as H2 by by_decide.
  assert (new_events s s'
          = [EvClientState 1 CONNECTED; EvSendJson 1 msg true;
             EvClientState 2 DISCONNECTED;
             EvClientState 3 CONNECTED; EvSendJson 3 msg true]) as Hev
    by reflexivity.
  assert (broadcast msg s = (s', Returns ())) as Hrun by reflexivity.
  assert (∀ st, EvClientState 2 st ∈ new_events s s' → st ≠ CONNECTED) as Hdown.
  { rewrite Hev. intros st H. invert_elem_of H. }
  destruct (broadcast_drops_unconnected s msg 2 s' _ Hrun H2 Hdown)
    as (_ & _ & Hnosend & Hfailed & _).
  split_and!; [exact H2|exact Hnosend|exact Hfailed|reflexivity].
Defined.

(** Registry [[1; 2; 3; 4]], sends to 1 raise and 3 is disconnected. *)
Lemma broadcast_only_removes_failed_witness :
  let n := {| closed := [3]; broken := [1] |} in
  let s := state [1; 2; 3; 4] None healthy n in
  NoDup (connections s)
  ∧ pass_survivors (JStr "tick") n (connections s) = [2; 4]
  ∧ ∃ s', broadcast (JStr "tick") s = (s', Returns ())
          ∧ state_reads (new_events s s') = [1; 2; 3; 4]
          ∧ failed_visits (new_events s s') = [1; 3]
          ∧ connections s' = pass_survivors (JStr "tick") n (connections s).
Proof.
  intros n s.
  assert (NoDup (connections s)) as Hnd by by_decide.
  split; [exact Hnd|]. split; [reflexivity|].
  destruct (broadcast_only_removes_failed s (JStr "tick"))
    as (s' & Hrun & _ & Hreads & _ & _ & Hfilter).
  destruct (Hfilter Hnd) as [_ Hsurv].
  assert (s' = (broadcast (JStr "tick") s).1) as -> by (by rewrite Hrun).
  exists (broadcast (JStr "tick") s).1.
  split_and!; [exact Hrun|exact Hreads|reflexivity|exact Hsurv].
Defined.

(** A turn on the empty registry. *)
Lemma idle_turn_calls_nothing_witness :
  let s := state [] None healthy all_up in
  connections s = [] ∧ broadcast_stats_turn s = (s, Returns ()).
Proof.
  intros s. split; [reflexivity|].
  destruct (idle_turn_calls_nothing s eq_refl) as [Hturn _]. exact Hturn.
Defined.


(** [psutil.cpu_percent] raises; a guild of the bot has no member count. *)
Lemma collectors_never_raise_witness :
  let s := state [1] (Some half_ready_bot) faulty all_up in
  (∃ e, (system_info_try s).2 = Raises e)
  ∧ (∃ e, (bot_info_try half_ready_bot s).2 = Raises e)
  ∧ (∃ v, (get_system_info s).2 = Returns v
          ∧ dict_get "timestamp" v = Some (JStr "7000"))
  ∧ (∃ v, (get_bot_info s).2 = Returns v
          ∧ dict_get "status" v = Some (JStr "error")).
Proof.
  intros s.
  assert (∃ e, (system_info_try s).2 = Raises e) as Hsys
    by (eexists; reflexivity).
  assert (∃ e, (bot_info_try half_ready_bot s).2 = Raises e) as Hbot
    by (eexists; reflexivity).
  destruct (collectors_never_raise s)
    as [(v & Hrun & Herr) (w & Hrun' & Herr')].
  destruct (Herr Hsys) as [_ Hstamp].
  destruct (Herr' half_ready_bot eq_refl Hbot) as [_ Hstatus].
  split_and!; [done|done| |].
  - exists v. by rewrite Hrun.
  - exists w. by rewrite Hrun'.
Defined.

(** No bot is bound. *)
Lemma unbound_bot_is_not_connected_witness :
  let s := state [1] None healthy all_up in
  bot_instance s = None
  ∧ ∃ v, (get_bot_info s).2 = Returns v
         ∧ dict_get "status" v = Some (JStr "not_connected").
Proof.
  intros s. split; [reflexivity|].
  destruct (unbound_bot_is_not_connected s eq_refl) as (v & Hrun & _ & Hstatus).
  exists v. by rewrite Hrun.
Defined.

(** * The further properties on concrete runs *)

(** Registry [[3]]; connection 7 comes and goes. *)
Lemma connect_then_disconnect_restores_witness :
  let s := state [3] None healthy all_up in
  let s1 := (connect 7 s).1 in
  (7 ∉ connections s)
  ∧ connect 7 s = (s1, Returns ())
  ∧ ∃ s2, disconnect 7 s1 = (s2, Returns ()) ∧ connections s2 = [3].
Proof.
  intros s s1.
  assert (7 ∉ connections s) as Hnew by by_decide.
  assert (connect 7 s = (s1, Returns ())) as Hrun by reflexivity.
  split; [exact Hnew|]. split; [exact Hrun|].
  exact (connect_then_disconnect_restores s 7 s1 Hnew Hrun).
Defined.

(** Registry [[3; 5; 3]]; one entry of 3 goes. *)
Lemma disconnect_removes_one_entry_witness :
  let s := state [3; 5; 3] None healthy all_up in
  3 ∈ connections s
  ∧ ∃ s', disconnect 3 s = (s', Returns ()) ∧ S (Count s') = Count s.
Proof.
  intros s.
  assert (3 ∈ connections s) as Hin by by_decide.
  split; [exact Hin|].
  destruct (disconnect_removes_one_entry s 3 Hin) as (s' & Hrun & Hcount & _).
  exists s'. split; [exact Hrun|exact Hcount].
Defined.

(** Registry [[1; 2]], everything up. *)
Lemma broadcast_without_failure_keeps_registry_witness :
  let s := state [1; 2] None healthy all_up in
  let run := broadcast (JStr "tick") s in
  failed_visits (new_events s run.1) = []
  ∧ connections run.1 = connections s.
Proof.
  intros s run.
  assert (failed_visits (new_events s run.1) = []) as Hnone by reflexivity.
  split; [exact Hnone|].
  destruct (broadcast_without_failure_keeps_registry s (JStr "tick") run.1 run.2)
    as [_ Hsame]; [apply surjective_pairing|exact Hnone|exact Hsame].
Defined.

Definition shut_state (conns : list WebSocket)
    : State (float:=Z) (datetime:=Z) (Net:=Shut) :=
  {| manager := {| active_connections := conns |};
     bot_instance := None; host := healthy; net := shut; trace := [] |}.

(** A host without network interfaces. *)
Lemma system_info_without_network_counters_witness :
  let s := state [1] None no_nics all_up in
  psutil_net_io_counters (host s) = Returns None
  ∧ (get_system_info s).2 = Returns (system_info_error 9000%Z).
Proof.
  intros s. split; [reflexivity|].
  exact (system_info_without_network_counters s eq_refl).
Defined.

(** A host that reports no CPU frequency. *)
Lemma system_info_without_cpu_freq_witness :
  let s := state [1] None healthy all_up in
  ∃ v cpu, (system_info_try s).2 = Returns v
           ∧ dict_get "cpu" v = Some cpu
           ∧ dict_get "frequency_mhz" cpu = Some (JInt 0).
Proof.
  intros s.
  destruct (system_info_try s).2 as [v|e] eqn:Hbody; [|discriminate Hbody].
  destruct (system_info_without_cpu_freq s v eq_refl Hbody)
    as (cpu & Hcpu & Hfreq & _).
  exists v, cpu. split_and!; [reflexivity|exact Hcpu|exact Hfreq].
Defined.

(** The uptime of the healthy host. *)
Lemma system_info_uptime_human_witness :
  let s := state [1] None healthy all_up in
  ∃ v sys human, (system_info_try s).2 = Returns v
                 ∧ dict_get "system" v = Some sys
                 ∧ dict_get "uptime_human" sys = Some (JStr human)
                 ∧ ("."%char ∉ chars human).
Proof.
  intros s.
  destruct (system_info_try s).2 as [v|e] eqn:Hbody; [|discriminate Hbody].
  destruct (system_info_uptime_human s v Hbody)
    as (stamp & boot & sys & human & rest & _ & _ & Hsys & Hhuman & Hdot & _).
  exists v, sys, human. split_and!; [reflexivity|exact Hsys|exact Hhuman|exact Hdot].
Defined.

(** A bot one of whose guilds has no member count. *)
Lemma bot_info_with_uncounted_guild_witness :
  let s := state [1] (Some half_ready_bot) healthy all_up in
  (∃ g, g ∈ [ {| member_count := Some 10%Z |}; {| member_count := None |} ]
        ∧ member_count g = None)
  ∧ (get_bot_info s).2 = Returns bot_info_error.
Proof.
  intros s.
  assert (∃ g, g ∈ [ {| member_count := Some 10%Z |};
                     {| member_count := None |} ]
               ∧ member_count g = None) as Hnone.
  { exists {| member_count := None |}. split; [right; left|reflexivity]. }
  split; [exact Hnone|].
  exact (bot_info_with_uncounted_guild s half_ready_bot _ eq_refl eq_refl Hnone).
Defined.

(** A bot without [start_time] and with a shard count of 0. *)
Lemma bot_info_without_start_time_witness :
  let s := state [1] (Some ready_bot) healthy all_up in
  ∃ v, (bot_info_try ready_bot s).2 = Returns v
       ∧ dict_get "uptime_human" v = Some (JStr "0h 0m 0s").
Proof.
  intros s.
  destruct (bot_info_try ready_bot s).2 as [v|e] eqn:Hbody;
    [|discriminate Hbody].
  destruct (bot_info_without_start_time s ready_bot v eq_refl Hbody)
    as [_ Hhuman].
  exists v. split; [reflexivity|exact Hhuman].
Defined.

Lemma bot_info_shard_count_witness :
  let s := state [1] (Some ready_bot) healthy all_up in
  ∃ v, (bot_info_try ready_bot s).2 = Returns v
       ∧ dict_get "shard_count" v = Some (JInt 1).
Proof.
  intros s.
  destruct (bot_info_try ready_bot s).2 as [v|e] eqn:Hbody;
    [|discriminate Hbody].
  destruct (bot_info_shard_count s ready_bot v Hbody)
    as (n & Hfield & _ & _ & Hone).
  exists v. split; [reflexivity|].
  rewrite Hfield. by rewrite (Hone (or_intror eq_refl)).
Defined.


(** Three idle turns. *)
Lemma scheduler_loop_idles_on_empty_registry_witness :
  let s := state [] None healthy all_up in
  connections s = [] ∧ broadcast_stats 3 s = (s, Returns ()).
Proof.
  intros s. split; [reflexivity|].
  exact (scheduler_loop_idles_on_empty_registry 3 s eq_refl).
Defined.

(** A handshake that fails. *)
Lemma endpoint_refused_connection_witness :
  let s := shut_state [1] in
  (ws_accept (net s) 7).2 = Raises (Exception "handshake failed")
  ∧ ∃ s', websocket_endpoint 4 7 s
          = (s', Raises (Exception "handshake failed"))
          ∧ connections s' = [1].
Proof.
  intros s.
  assert ((ws_accept (net s) 7).2 = Raises (Exception "handshake failed"))
    as Hacc by reflexivity.
  split; [exact Hacc|].
  destruct (endpoint_refused_connection 4 7 s _ Hacc) as (s' & Hrun & Hconns & _).
  exists s'. split; [exact Hrun|exact Hconns].
Defined.

(** A client that sends a text, stays silent for a turn and hangs up. *)
Lemma endpoint_sends_the_initial_message_only_witness :
  let s := tape_state [1] [Some "hi"; None] in
  (ws_accept (net s) 7).2 = Returns ()
  ∧ ∃ s' finished m ok,
      websocket_endpoint 5 7 s = (s', Returns finished)
      ∧ new_events s s'
        = [EvAccept 7 true; EvSystemInfo; EvBotInfo; EvSendJson 7 m ok]
      ∧ dict_get "type" m = Some (JStr "initial").
Proof.
  intros s.
  assert ((ws_accept (net s) 7).2 = Returns ()) as Hacc by reflexivity.
  split; [exact Hacc|].
  destruct (endpoint_sends_the_initial_message_only 5 7 s Hacc)
    as (s' & finished & system & bot & ok & Hrun & _ & _ & Hev & Htype).
  exists s', finished, (initial_message system bot), ok.
  split_and!; [exact Hrun|exact Hev|exact Htype].
Defined.

Lemma endpoint_registers_while_running_witness :
  let s := tape_state [1] [Some "hi"; None] in
  (ws_accept (net s) 7).2 = Returns ()
  ∧ connections (websocket_endpoint 2 7 s).1 = [1; 7]
  ∧ connections (websocket_endpoint 3 7 s).1 = [1]
  ∧ ∃ s' finished,
      websocket_endpoint 2 7 s = (s', Returns finished)
      ∧ (finished = false → connections s' = connections s ++ [7]).
Proof.
  intros s.
  assert ((ws_accept (net s) 7).2 = Returns ()) as Hacc by reflexivity.
  split; [exact Hacc|]. split; [reflexivity|]. split; [reflexivity|].
  destruct (endpoint_registers_while_running 2 7 s Hacc)
    as (s' & finished & Hrun & Hopen & _).
  exists s', finished. split; [exact Hrun|exact Hopen].
Defined.

(** A connection whose first send raises. *)
Lemma endpoint_failed_initial_send_witness :
  let n := {| closed := []; broken := [7] |} in
  let s := state [1] None healthy n in
  ∃ system bot,
    ws_accept (net s) 7 = (n, Returns ())
    ∧ (get_system_info s).2 = Returns system
    ∧ (get_bot_info s).2 = Returns bot
    ∧ ws_send_json n 7 (initial_message system bot)
      = (n, Raises (Exception "WebSocketDisconnect"))
    ∧ ∃ s', websocket_endpoint 9 7 s = (s', Returns true)
            ∧ connections s' = [1].
Proof.
  intros n s.
  destruct (get_system_info s).2 as [system|] eqn:Hsys; [|discriminate Hsys].
  destruct (get_bot_info s).2 as [bot|] eqn:Hbot; [|discriminate Hbot].
  assert (ws_accept (net s) 7 = (n, Returns ())) as Hacc by reflexivity.
  assert (ws_send_json n 7 (initial_message system bot)
          = (n, Raises (Exception "WebSocketDisconnect"))) as Hsend
    by reflexivity.
  assert (7 ∉ connections s) as Hnew by by_decide.
  destruct (endpoint_failed_initial_send 9 7 s n system bot n _
              Hacc Hsys Hbot Hsend) as (s' & Hrun & _ & _ & Hfresh).
  exists system, bot. split_and!; [exact Hacc|reflexivity|reflexivity|exact Hsend|].
  exists s'. split; [exact Hrun|exact (Hfresh Hnew)].
Defined.

(** The client of the tape hangs up at the third wait. *)
Lemma endpoint_ends_when_client_hangs_up_witness :
  let s := tape_state [1] [Some "hi"; None] in
  let s0 := (websocket_endpoint 0 7 s).1 in
  let s1 := (receive_loop 3 7 s0).1 in
  websocket_endpoint 0 7 s = (s0, Returns false)
  ∧ receive_loop 3 7 s0 = (s1, Raises (Exception "WebSocketDisconnect"))
  ∧ 3 ≤ 8
  ∧ ∃ s', websocket_endpoint 8 7 s = (s', Returns true)
          ∧ connections s' = [1].
Proof.
  intros s s0 s1.
  assert (websocket_endpoint 0 7 s = (s0, Returns false)) as Hopen
    by reflexivity.
  assert (receive_loop 3 7 s0
          = (s1, Raises (Exception "WebSocketDisconnect"))) as Hloop
    by reflexivity.
  assert (3 ≤ 8) as Hk by lia.
  assert (7 ∉ connections s) as Hnew by by_decide.
  destruct (endpoint_ends_when_client_hangs_up 3 8 7 s s0 s1 _ Hopen Hloop Hk)
    as (s' & Hrun & _ & _ & Hfresh).
  split_and!; [exact Hopen|exact Hloop|exact Hk|].
  exists s'. split; [exact Hrun|exact (Hfresh Hnew)].
Defined.

(** Start-up without [uvicorn]. *)
Lemma start_binds_the_bot_witness :
  let s := state [1] None healthy all_up in
  let s' := (start_webgui false (Returns ()) (Some ready_bot) "0.0.0.0" 8080 s).1 in
  bot_instance s' = Some ready_bot
  ∧ ∃ v st, (get_bot_info s').2 = Returns v
            ∧ dict_get "status" v = Some (JStr st)
            ∧ st ≠ "not_connected".
Proof.
  intros s s'.
  destruct (start_binds_the_bot false (Returns ()) (λ _, Returns ())
              ready_bot "0.0.0.0" 8080 s s' (or_introl eq_refl))
    as (Hbound & _ & _ & Hstatus).
  split; [exact Hbound|exact Hstatus].
Defined.

(** Registry [[1; 2; 3]], 2 is down. *)
Lemma registry_stays_duplicate_free_witness :
  let s := state [1; 2; 3] None healthy {| closed := [2]; broken := [] |} in
  NoDup (connections s)
  ∧ NoDup (connections (broadcast_stats 2 s).1)
  ∧ NoDup (connections (websocket_endpoint 3 7 s).1).
Proof.
  intros s.
  assert (NoDup (connections s)) as Hnd by by_decide.
  assert (7 ∉ connections s) as Hnew by by_decide.
  destruct (registry_stays_duplicate_free s Hnd) as (_ & _ & _ & Hloop & Hsession).
  split_and!; [exact Hnd|exact (Hloop 2)|exact (Hsession 3 7 Hnew)].
Defined.
